(** * SolarTrackerApp: the energy model of [app.py]

    A shallow embedding of the computational core of the Streamlit script
    [src/app.py]: consumption total, efficiency chain, daily balance, the
    day-by-day state-of-charge loop, the count of days below the minimum
    capacity, and the battery/panel sweep computed by [sim_dias_sin].

    Numbers.  The script computes with Python/NumPy floats.  Here every
    float is an exact rational ([Q]); rounding, infinities and NaN are
    outside the model.  Comparisons are the boolean tests the script
    performs ([<], [>], [<=]); equalities between computed quantities are
    stated up to [Qeq] where arithmetic is involved and as Leibniz
    equalities where the script stores or copies a value.  The module
    [Float64] repeats the loops on binary64 floats, to evaluate them where
    a cell of the generation file is not a number.

    The script is one top-level program.  Its inputs (the column
    [ENERGIA (Wh)] of the consumption file, the two columns of the
    generation file and the widget values) are the arguments of [script];
    the [st.stop()] of the efficiency guard is an early return in a sum
    type.  Reading the files, the checks that the columns exist, and the
    charts are not part of the embedding. *)

From Stdlib Require Import QArith Lqa ZArith List Sorted Permutation Bool String Lia.
From Stdlib Require Import PrimFloat.
Import ListNotations.
Open Scope Q_scope.

(** ** Float comparisons *)

(** [x < y] on floats. *)
Definition Qltb (x y : Q) : bool :=
  match x ?= y with Lt => true | _ => false end.

(** [x > y] is [y < x]. *)
Definition Qgtb (x y : Q) : bool := Qltb y x.

(** [x <= y] on floats. *)
Definition Qleb (x y : Q) : bool := Qle_bool x y.

(** Python's builtin [min(a, b)]: the first argument unless the second is
    strictly smaller. *)
Definition py_min (a b : Q) : Q := if Qltb b a then b else a.

(** Python's builtin [max(a, b)]: the first argument unless the second is
    strictly greater. *)
Definition py_max (a b : Q) : Q := if Qgtb b a then b else a.

(** ** Inputs *)

(** One row of [energia_generada.xlsx] after
    [pd.to_datetime(..., errors="coerce")]: the date as a day number, or
    [None] for a cell that does not parse (NaT). *)
Record FilaCruda := {
  fecha_cruda : option Z;
  energia_cruda : Q
}.

(** One row of [df_gen] (columns [fecha], [energia_1kw_kwh]). *)
Record FilaGen := {
  fecha : Z;
  energia_1kw_kwh : Q
}.

(** The values of the [st.number_input] and [st.slider] widgets. *)
Record Widgets := {
  panel_kw : Q;
  eta_fv : Q;
  eta_cableado : Q;
  eta_mppt : Q;
  eta_bat : Q;
  V_bat : Q;
  C_bat_Ah : Q;
  DoD_pct : Q;
  soc_init_pct : Z
}.

(** The [min_value]/[max_value] bounds of the widgets. *)
Definition rangos_widgets (w : Widgets) : bool :=
  Qleb (1 # 10) (panel_kw w) && Qleb (panel_kw w) 50 &&
  Qleb 0 (eta_fv w) && Qleb (eta_fv w) 1 &&
  Qleb 0 (eta_cableado w) && Qleb (eta_cableado w) 1 &&
  Qleb 0 (eta_mppt w) && Qleb (eta_mppt w) 1 &&
  Qleb 0 (eta_bat w) && Qleb (eta_bat w) 1 &&
  Qleb 1 (V_bat w) && Qleb (V_bat w) 1000 &&
  Qleb 1 (C_bat_Ah w) && Qleb (C_bat_Ah w) 10000 &&
  Qleb 0 (DoD_pct w) && Qleb (DoD_pct w) 100 &&
  (0 <=? soc_init_pct w)%Z && (soc_init_pct w <=? 100)%Z.

(** ** Section 2 of the script: total daily consumption *)

(** [df_consumo["ENERGIA (Wh)"].sum()] *)
Definition consumo_total_Wh (df_consumo : list Q) : Q :=
  fold_right Qplus 0 df_consumo.

Definition consumo_total_kWh (df_consumo : list Q) : Q :=
  consumo_total_Wh df_consumo / 1000.

(** ** Section 3: the generation table *)

(** [dropna(subset=["fecha"])] *)
Fixpoint dropna (filas : list FilaCruda) : list FilaGen :=
  match filas with
  | [] => []
  | f :: resto =>
      match fecha_cruda f with
      | Some d => {| fecha := d; energia_1kw_kwh := energia_cruda f |} :: dropna resto
      | None => dropna resto
      end
  end.

(** [sort_values("fecha")], as an insertion sort.  On a table whose dates
    are pairwise distinct every sorting algorithm gives the same table. *)
Fixpoint insertar (f : FilaGen) (l : list FilaGen) : list FilaGen :=
  match l with
  | [] => [f]
  | g :: resto =>
      if (fecha f <=? fecha g)%Z then f :: l else g :: insertar f resto
  end.

Fixpoint sort_values (l : list FilaGen) : list FilaGen :=
  match l with
  | [] => []
  | f :: resto => insertar f (sort_values resto)
  end.

Definition df_gen (df_generacion : list FilaCruda) : list FilaGen :=
  sort_values (dropna df_generacion).

(** [df_gen["energia_kwh"] = df_gen["energia_1kw_kwh"] * panel_kw] *)
Definition escalar (panel_kw : Q) (energia_1kw : list Q) : list Q :=
  map (fun e => e * panel_kw) energia_1kw.

(** ** Section 4: global efficiency and daily demand *)

Definition eta_global (w : Widgets) : Q :=
  eta_fv w * eta_cableado w * eta_mppt w * eta_bat w.

Definition demanda_kwh (df_consumo : list Q) (w : Widgets) : Q :=
  consumo_total_kWh df_consumo / eta_global w.

(** ** Section 5: battery parameters and the state-of-charge loop *)

Definition E_max_Wh (w : Widgets) : Q := V_bat w * C_bat_Ah w.

Definition E_min_de (E_max DoD : Q) : Q := E_max * (1 - DoD / 100).

Definition E_min_Wh (w : Widgets) : Q := E_min_de (E_max_Wh w) (DoD_pct w).

Definition SoC0_Wh (w : Widgets) : Q :=
  E_max_Wh w * inject_Z (soc_init_pct w) / 100.

(** The two [if] statements of the loop body (lines 249-252). *)
Definition limitar (E_max soc : Q) : Q :=
  let soc := if Qgtb soc E_max then E_max else soc in
  if Qltb soc 0 then 0 else soc.

(** One iteration of [for b in df["balance_Wh"].values]: the state is the
    running [soc] and the list [soc_list] built so far. *)
Definition paso_soc (E_max : Q) (st : Q * list Q) (b : Q) : Q * list Q :=
  let '(soc, acc) := st in
  let soc := soc + b in
  let soc := limitar E_max soc in
  (soc, acc ++ [soc]).

(** The whole loop, from [soc_list = []] and [soc = SoC0_Wh]. *)
Definition soc_list (E_max SoC0 : Q) (balance_Wh : list Q) : list Q :=
  snd (fold_left (paso_soc E_max) balance_Wh (SoC0, [])).

(** [int(df["bateria_por_debajo_min"].sum())] *)
Definition suma_bool (col : list bool) : nat :=
  List.length (filter (fun b => b) col).

(** The simulation table [df], column by column. *)
Record DataFrame := {
  col_fecha : list Z;
  col_energia_1kw_kwh : list Q;
  col_energia_kwh : list Q;
  col_consumo_kwh : list Q;
  col_demanda_kwh : list Q;
  col_balance_kwh : list Q;
  col_balance_Wh : list Q;
  col_SoC_Wh : list Q;
  col_SoC_pct : list Q;
  col_bateria_por_debajo_min : list bool
}.

(** [df["bateria_por_debajo_min"] = df["SoC_Wh"] < E_min_Wh] *)
Definition por_debajo_min (E_min : Q) (SoC_Wh : list Q) : list bool :=
  map (fun s => Qltb s E_min) SoC_Wh.

(** The block that builds [df] from [df_gen] (lines 191-257), as a
    function of the scalars it reads. *)
Definition simular (consumo_kWh demanda panel_kw E_max E_min SoC0 : Q)
  (gen : list FilaGen) : DataFrame :=
  let energia_1kw := map energia_1kw_kwh gen in
  let energia_kwh := escalar panel_kw energia_1kw in
  let c_demanda := map (fun _ => demanda) gen in
  let balance_kwh := map (fun '(e, d) => e - d) (combine energia_kwh c_demanda) in
  let balance_Wh := map (fun b => b * 1000) balance_kwh in
  let SoC_Wh := soc_list E_max SoC0 balance_Wh in
  {| col_fecha := map fecha gen;
     col_energia_1kw_kwh := energia_1kw;
     col_energia_kwh := energia_kwh;
     col_consumo_kwh := map (fun _ => consumo_kWh) gen;
     col_demanda_kwh := c_demanda;
     col_balance_kwh := balance_kwh;
     col_balance_Wh := balance_Wh;
     col_SoC_Wh := SoC_Wh;
     col_SoC_pct := map (fun s => s / E_max * 100) SoC_Wh;
     col_bateria_por_debajo_min := por_debajo_min E_min SoC_Wh |}.

(** ** Section 7: days without supply against battery and panel size *)

Definition lista_bat_Wh : list Q := [600; 1200; 1800; 2400; 3000].

Definition lista_pv_kw : list Q := [0.4; 0.5; 0.6; 0.8; 1.0].

(** The dictionary [etiquetas_pv], in source order. *)
Definition etiquetas_pv : list (Q * string) :=
  [ (0.4, "2 × 200W"%string);
    (0.5, "2 × 250W"%string);
    (0.6, "2 × 300W"%string);
    (0.8, "2 × 400W"%string);
    (1.0, "2 × 500W"%string) ].

(** [d[k]] on a dictionary with float keys; [None] stands for [KeyError]. *)
Fixpoint dict_get {A : Type} (d : list (Q * A)) (k : Q) : option A :=
  match d with
  | [] => None
  | (k', v) :: resto => if Qeq_bool k' k then Some v else dict_get resto k
  end.

(** The body of the loop of [sim_dias_sin]: the state is [(soc, dias_sin)]. *)
Definition paso_sim (demanda panel_kw E_max E_min : Q)
  (st : Q * nat) (energia_1kw : Q) : Q * nat :=
  let '(soc, dias_sin) := st in
  let energia_kwh := energia_1kw * panel_kw in
  let balance_kwh := energia_kwh - demanda in
  let soc := soc + balance_kwh * 1000 in
  let soc := py_min soc E_max in
  let soc := py_max soc 0 in
  let dias_sin := if Qltb soc E_min then S dias_sin else dias_sin in
  (soc, dias_sin).

(** The final state of the loop of [sim_dias_sin]. *)
Definition sim_estado (DoD demanda : Q) (energia_1kw : list Q)
  (panel_kw bat_Wh : Q) : Q * nat :=
  let E_max := bat_Wh in
  let E_min := E_max * (1 - DoD / 100) in
  let soc := E_max in
  let dias_sin := O in
  fold_left (paso_sim demanda panel_kw E_max E_min) energia_1kw (soc, dias_sin).

(** [sim_dias_sin(panel_kw, bat_Wh)]; the globals [DoD_pct], [demanda_kwh]
    and [df_gen["energia_1kw_kwh"]] it reads are its first arguments. *)
Definition sim_dias_sin (DoD demanda : Q) (energia_1kw : list Q)
  (panel_kw bat_Wh : Q) : nat :=
  snd (sim_estado DoD demanda energia_1kw panel_kw bat_Wh).

Record FilaExcel := {
  E_bateria_Wh : Q;
  Potencia_label : string;
  Dias_sin : nat
}.

(** The inner loop [for pv_kw in lista_pv_kw], appending to [rows]. *)
Fixpoint filas_pv (DoD demanda : Q) (energia_1kw : list Q) (bat_Wh : Q)
  (pvs : list Q) (rows : list FilaExcel) : option (list FilaExcel) :=
  match pvs with
  | [] => Some rows
  | pv_kw :: resto =>
      let dias_sin := sim_dias_sin DoD demanda energia_1kw pv_kw bat_Wh in
      match dict_get etiquetas_pv pv_kw with
      | None => None
      | Some etiqueta =>
          filas_pv DoD demanda energia_1kw bat_Wh resto
            (rows ++ [ {| E_bateria_Wh := bat_Wh;
                          Potencia_label := etiqueta;
                          Dias_sin := dias_sin |} ])
      end
  end.

(** The outer loop [for bat_Wh in lista_bat_Wh]. *)
Fixpoint filas_bat (DoD demanda : Q) (energia_1kw : list Q)
  (bats pvs : list Q) (rows : list FilaExcel) : option (list FilaExcel) :=
  match bats with
  | [] => Some rows
  | bat_Wh :: resto =>
      match filas_pv DoD demanda energia_1kw bat_Wh pvs rows with
      | None => None
      | Some rows' => filas_bat DoD demanda energia_1kw resto pvs rows'
      end
  end.

(** The table [rows] built by the two nested loops (lines 395-406). *)
Definition construir_tabla (DoD demanda : Q) (energia_1kw : list Q)
  : option (list FilaExcel) :=
  filas_bat DoD demanda energia_1kw lista_bat_Wh lista_pv_kw [].

(** ** The script *)

Inductive Error :=
| ConfigurationError  (* [st.error("La eficiencia global es 0. ...")], [st.stop()] *)
| KeyError.           (* a missing key in [etiquetas_pv] *)

(** What a complete run of the script has computed. *)
Record Resultado := {
  df : DataFrame;
  dias_sin_bateria : nat;
  df_excel : list FilaExcel
}.

Definition script (df_consumo : list Q) (df_generacion : list FilaCruda)
  (w : Widgets) : Error + Resultado :=
  let gen := df_gen df_generacion in
  if Qleb (eta_global w) 0 then inl ConfigurationError
  else
    let demanda := demanda_kwh df_consumo w in
    let d := simular (consumo_total_kWh df_consumo) demanda (panel_kw w)
               (E_max_Wh w) (E_min_Wh w) (SoC0_Wh w) gen in
    let n := suma_bool (col_bateria_por_debajo_min d) in
    match construir_tabla (DoD_pct w) demanda (map energia_1kw_kwh gen) with
    | None => inl KeyError
    | Some rows => inr {| df := d; dias_sin_bateria := n; df_excel := rows |}
    end.

(** ** The recurrence as the specification words it *)



(** A generation series as the specification wants it: dates strictly
    ascending (so pairwise distinct). *)
Definition fechas_ascendentes (gen : list FilaGen) : Prop :=
  StronglySorted (fun a b => (fecha a < fecha b)%Z) gen.

(** The number of values strictly below a floor. *)
Definition dias_bajo_minimo (E_min : Q) (socs : list Q) : nat :=
  List.length (filter (fun soc => if Qlt_le_dec soc E_min then true else false) socs).

(** ** Observing the loops day by day *)

(** The value of [soc] after the first [k] iterations of the main loop. *)
Definition soc_tras (E_max SoC0 : Q) (balance_Wh : list Q) (k : nat) : Q :=
  fst (fold_left (paso_soc E_max) (firstn k balance_Wh) (SoC0, [])).

(** The value of [soc] after the first [k] iterations of the loop of
    [sim_dias_sin]. *)
Definition sim_soc (DoD demanda : Q) (energia_1kw : list Q)
  (panel_kw bat_Wh : Q) (k : nat) : Q :=
  fst (sim_estado DoD demanda (firstn k energia_1kw) panel_kw bat_Wh).

(** The values of [soc] at the end of each iteration of [sim_dias_sin]. *)
Definition sim_soc_list (DoD demanda : Q) (energia_1kw : list Q)
  (panel_kw bat_Wh : Q) : list Q :=
  map (sim_soc DoD demanda energia_1kw panel_kw bat_Wh)
      (seq 1 (List.length energia_1kw)).

(** ** Closed forms of the loops, for the proofs *)

(** The loops as structural recursions, for the proofs: the list of the
    values of [soc] from a given start. *)
Fixpoint trayectoria (E_max soc : Q) (balance_Wh : list Q) : list Q :=
  match balance_Wh with
  | [] => []
  | b :: resto =>
      let soc' := limitar E_max (soc + b) in
      soc' :: trayectoria E_max soc' resto
  end.

(** The balance column in Wh for a panel power and a demand. *)
Definition balance_Wh_de (demanda panel_kw : Q) (energia_1kw : list Q) : list Q :=
  map (fun e => (e * panel_kw - demanda) * 1000) energia_1kw.

(** The table the nested loops build: one row per battery capacity and
    per entry of [etiquetas_pv], capacities outermost. *)
Definition tabla (DoD demanda : Q) (energia_1kw : list Q) : list FilaExcel :=
  flat_map
    (fun bat_Wh =>
       map (fun '(pv_kw, etiqueta) =>
              {| E_bateria_Wh := bat_Wh;
                 Potencia_label := etiqueta;
                 Dias_sin := sim_dias_sin DoD demanda energia_1kw pv_kw bat_Wh |})
           etiquetas_pv)
    lista_bat_Wh.

(** The table [df] of a run without samples. *)
Definition df_vacio : DataFrame :=
  {| col_fecha := []; col_energia_1kw_kwh := []; col_energia_kwh := [];
     col_consumo_kwh := []; col_demanda_kwh := []; col_balance_kwh := [];
     col_balance_Wh := []; col_SoC_Wh := []; col_SoC_pct := [];
     col_bateria_por_debajo_min := [] |}.

(** ** Inputs used in the examples *)

(** The default values of the widgets. *)
Definition w_defecto : Widgets :=
  {| panel_kw := 1.0; eta_fv := 0.90; eta_cableado := 0.98; eta_mppt := 0.96;
     eta_bat := 0.90; V_bat := 12; C_bat_Ah := 250; DoD_pct := 80;
     soc_init_pct := 100 |}.

(** A battery of 20 V x 100 Ah = 2000 Wh, no losses, a 1 kW panel. *)
Definition w_ejemplo : Widgets :=
  {| panel_kw := 1; eta_fv := 1; eta_cableado := 1; eta_mppt := 1;
     eta_bat := 1; V_bat := 20; C_bat_Ah := 100; DoD_pct := 80;
     soc_init_pct := 100 |}.

(** Widget values with a zero efficiency factor. *)
Definition w_eta_cero : Widgets :=
  {| panel_kw := 1; eta_fv := 0; eta_cableado := 1; eta_mppt := 1;
     eta_bat := 1; V_bat := 20; C_bat_Ah := 100; DoD_pct := 80;
     soc_init_pct := 100 |}.

(** The example with the depth-of-discharge widget at its maximum. *)
Definition w_dod_100 : Widgets :=
  {| panel_kw := 1; eta_fv := 1; eta_cableado := 1; eta_mppt := 1;
     eta_bat := 1; V_bat := 20; C_bat_Ah := 100; DoD_pct := 100;
     soc_init_pct := 100 |}.

(** The same widget values with another position of the initial-SoC slider. *)
Definition con_soc_init (w : Widgets) (pct : Z) : Widgets :=
  {| panel_kw := panel_kw w; eta_fv := eta_fv w;
     eta_cableado := eta_cableado w; eta_mppt := eta_mppt w;
     eta_bat := eta_bat w; V_bat := V_bat w; C_bat_Ah := C_bat_Ah w;
     DoD_pct := DoD_pct w; soc_init_pct := pct |}.

(** Four days without any generation. *)
Definition gen_ejemplo : list FilaCruda :=
  [ {| fecha_cruda := Some 1%Z; energia_cruda := 0 |};
    {| fecha_cruda := Some 2%Z; energia_cruda := 0 |};
    {| fecha_cruda := Some 3%Z; energia_cruda := 0 |};
    {| fecha_cruda := Some 4%Z; energia_cruda := 0 |} ].

(** A series whose generation covers the demand of the example every day
    (exactly on the second day). *)
Definition gen_excedente : list FilaCruda :=
  [ {| fecha_cruda := Some 1%Z; energia_cruda := 2 |};
    {| fecha_cruda := Some 2%Z; energia_cruda := 1 # 2 |};
    {| fecha_cruda := Some 3%Z; energia_cruda := 1 |} ].

(** A generation file with a negative entry. *)
Definition gen_negativa : list FilaCruda :=
  [ {| fecha_cruda := Some 1%Z; energia_cruda := - (1 # 4) |} ].

(** ** Other quantities the script shows *)

(** [len(df)], the metric "Días simulados". *)
Definition dias_simulados (d : DataFrame) : nat := List.length (col_fecha d).

(** [x >= y] on floats. *)
Definition Qgeb (x y : Q) : bool := Qleb y x.

(** [df["color"] = df["balance_kwh"].apply(lambda x: "EXCEDENTE" if x >= 0
    else "DEFICIT")] (lines 309-311). *)
Definition col_color (d : DataFrame) : list string :=
  map (fun x => if Qgeb x 0 then "EXCEDENTE"%string else "DEFICIT"%string)
      (col_balance_kwh d).

(** The rows of the generation file whose date parses. *)
Definition fecha_valida (f : FilaCruda) : bool :=
  match fecha_cruda f with Some _ => true | None => false end.

(** Generation files used in the examples: three rows out of date order,
    one of them without a usable date, and the same data in order. *)
Definition gen_desordenada : list FilaCruda :=
  [ {| fecha_cruda := Some 2%Z; energia_cruda := 1 # 2 |};
    {| fecha_cruda := None; energia_cruda := 7 |};
    {| fecha_cruda := Some 1%Z; energia_cruda := 2 |} ].

Definition gen_en_orden : list FilaCruda :=
  [ {| fecha_cruda := Some 1%Z; energia_cruda := 2 |};
    {| fecha_cruda := Some 2%Z; energia_cruda := 1 # 2 |} ].

(** The same widget values with another panel power. *)
Definition con_panel_kw (w : Widgets) (p : Q) : Widgets :=
  {| panel_kw := p; eta_fv := eta_fv w;
     eta_cableado := eta_cableado w; eta_mppt := eta_mppt w;
     eta_bat := eta_bat w; V_bat := V_bat w; C_bat_Ah := C_bat_Ah w;
     DoD_pct := DoD_pct w; soc_init_pct := soc_init_pct w |}.

(** ** The loops on binary64 floats

    The numbers of the script are IEEE binary64 floats.  This module
    repeats the filter of the generation file, the balance column, the main
    loop and the loop of [sim_dias_sin] on Rocq's primitive floats, so that
    they can be evaluated on inputs that are not rationals: a blank energy
    cell of the generation file is read as NaN. *)
Module Float64.
Local Open Scope float_scope.

Record FilaCruda := {
  fecha_cruda : option Z;
  energia_cruda : float
}.

Record FilaGen := {
  fecha : Z;
  energia_1kw_kwh : float
}.

(** [dropna(subset=["fecha"])]: only the date decides. *)
Fixpoint dropna (filas : list FilaCruda) : list FilaGen :=
  match filas with
  | [] => []
  | f :: resto =>
      match fecha_cruda f with
      | Some d => {| fecha := d; energia_1kw_kwh := energia_cruda f |} :: dropna resto
      | None => dropna resto
      end
  end.

(** [energia_1kw_kwh * panel_kw - demanda_kwh], times 1000 (lines 121,
    194, 195). *)
Definition balance_Wh (demanda panel_kw : float) (energia_1kw : list float)
  : list float :=
  map (fun e => (e * panel_kw - demanda) * 1000) energia_1kw.

(** The two [if] statements of the main loop (lines 249-252). *)
Definition limitar (E_max soc : float) : float :=
  let soc := if E_max <? soc then E_max else soc in
  if soc <? 0 then 0 else soc.

Definition paso_soc (E_max : float) (st : float * list float) (b : float)
  : float * list float :=
  let '(soc, acc) := st in
  let soc := soc + b in
  let soc := limitar E_max soc in
  (soc, acc ++ [soc]).

Definition soc_list (E_max SoC0 : float) (balance : list float) : list float :=
  snd (fold_left (paso_soc E_max) balance (SoC0, [])).

(** Python's [min(a, b)] and [max(a, b)]. *)
Definition py_min (a b : float) : float := if b <? a then b else a.

Definition py_max (a b : float) : float := if a <? b then b else a.

(** The body of the loop of [sim_dias_sin] (lines 380-390). *)
Definition paso_sim (demanda panel_kw E_max E_min : float)
  (st : float * nat) (energia_1kw : float) : float * nat :=
  let '(soc, dias_sin) := st in
  let energia_kwh := energia_1kw * panel_kw in
  let balance_kwh := energia_kwh - demanda in
  let soc := soc + balance_kwh * 1000 in
  let soc := py_min soc E_max in
  let soc := py_max soc 0 in
  let dias_sin := if soc <? E_min then S dias_sin else dias_sin in
  (soc, dias_sin).

(** The final [soc] and the result of [sim_dias_sin(panel_kw, bat_Wh)]. *)
Definition sim_estado (DoD demanda : float) (energia_1kw : list float)
  (panel_kw bat_Wh : float) : float * nat :=
  let E_max := bat_Wh in
  let E_min := E_max * (1 - DoD / 100) in
  let soc := E_max in
  let dias_sin := O in
  fold_left (paso_sim demanda panel_kw E_max E_min) energia_1kw (soc, dias_sin).

(** The test [0 <= soc <= E_max]. *)
Definition en_rango (E_max soc : float) : bool :=
  (0 <=? soc) && (soc <=? E_max).

(** A generation file of three days, 1 kWh each, whose second energy
    cell is blank. *)
Definition gen_celda_vacia : list FilaCruda :=
  [ {| fecha_cruda := Some 1%Z; energia_cruda := 1 |};
    {| fecha_cruda := Some 2%Z; energia_cruda := nan |};
    {| fecha_cruda := Some 3%Z; energia_cruda := 1 |} ].

End Float64.

(** ** Comparisons *)

Lemma Qltb_lt (x y : Q) : Qltb x y = true <-> x < y.
Proof.
  unfold Qltb. rewrite Qlt_alt. destruct (x ?= y); split; congruence.
Qed.

Lemma Qltb_ge (x y : Q) : Qltb x y = false <-> y <= x.
Proof.
  rewrite <- Bool.not_true_iff_false, Qltb_lt. split.
  - apply Qnot_lt_le.
  - apply Qle_not_lt.
Qed.

Lemma Qleb_le (x y : Q) : Qleb x y = true <-> x <= y.
Proof. apply Qle_bool_iff. Qed.

Lemma Qleb_gt (x y : Q) : Qleb x y = false <-> y < x.
Proof.
  rewrite <- Bool.not_true_iff_false, Qleb_le. split.
  - apply Qnot_le_lt.
  - apply Qlt_not_le.
Qed.

(** Case analysis on every comparison of the goal, each branch keeping the
    order fact in the context. *)
Ltac qtest x y :=
  let H := fresh "Hcmp" in
  destruct (Qltb x y) eqn:H;
  [ apply Qltb_lt in H | apply Qltb_ge in H ].

Ltac qcases :=
  repeat match goal with
  | |- context [Qltb ?x ?y] => qtest x y
  | H : context [Qltb ?x ?y] |- _ => qtest x y
  end.

(** ** The clamp of the main loop *)

Lemma limitar_rango (E x : Q) : 0 <= E -> 0 <= limitar E x <= E.
Proof.
  intros HE. unfold limitar, Qgtb. qcases; lra.
Qed.

Lemma limitar_no_negativo (E x : Q) : 0 <= limitar E x.
Proof.
  unfold limitar, Qgtb. qcases; lra.
Qed.


Lemma limitar_techo (E x : Q) : 0 <= E -> E <= x -> limitar E x == E.
Proof.
  intros HE Hx. unfold limitar, Qgtb. qcases; lra.
Qed.

Lemma limitar_suelo (E x : Q) : x <= 0 -> limitar E x == 0.
Proof.
  intros Hx. unfold limitar, Qgtb. qcases; lra.
Qed.

Lemma limitar_mono (E x y : Q) : x <= y -> limitar E x <= limitar E y.
Proof.
  intros Hxy. unfold limitar, Qgtb. qcases; lra.
Qed.

(** The sweep clamps with [min] and [max]; it is the same function. *)
Lemma min_max_limitar (E x : Q) : py_max (py_min x E) 0 = limitar E x.
Proof. reflexivity. Qed.

(** ** The main loop *)

Lemma last_cons_indep {A : Type} (x : A) (l : list A) (d d' : A) :
  last (x :: l) d = last (x :: l) d'.
Proof.
  revert x. induction l as [|y l IH]; intros x; [reflexivity|].
  change (last (y :: l) d = last (y :: l) d'). apply IH.
Qed.

Lemma last_cons_start {A : Type} (x : A) (l : list A) (d : A) :
  last (x :: l) d = last l x.
Proof.
  destruct l as [|y l]; [reflexivity|].
  change (last (y :: l) d = last (y :: l) x). apply last_cons_indep.
Qed.

Lemma fold_paso_soc (E : Q) (bs : list Q) :
  forall s acc,
    fold_left (paso_soc E) bs (s, acc) =
    (last (trayectoria E s bs) s, acc ++ trayectoria E s bs).
Proof.
  induction bs as [|b bs IH]; intros s acc; simpl.
  - now rewrite app_nil_r.
  - rewrite IH, <- app_assoc. cbn [app]. f_equal.
    symmetry. apply last_cons_start.
Qed.

Lemma soc_list_trayectoria (E s : Q) (bs : list Q) :
  soc_list E s bs = trayectoria E s bs.
Proof. unfold soc_list. now rewrite fold_paso_soc. Qed.

Lemma soc_list_cons (E s b : Q) (bs : list Q) :
  soc_list E s (b :: bs) =
  limitar E (s + b) :: soc_list E (limitar E (s + b)) bs.
Proof. now rewrite !soc_list_trayectoria. Qed.

Lemma soc_list_length (E s : Q) (bs : list Q) :
  List.length (soc_list E s bs) = List.length bs.
Proof.
  rewrite soc_list_trayectoria. revert s.
  induction bs as [|b bs IH]; intros s; simpl; [reflexivity | now rewrite IH].
Qed.

Lemma trayectoria_app (E s : Q) (bs1 bs2 : list Q) :
  trayectoria E s (bs1 ++ bs2) =
  trayectoria E s bs1 ++ trayectoria E (last (trayectoria E s bs1) s) bs2.
Proof.
  revert s. induction bs1 as [|b bs1 IH]; intros s; [reflexivity|].
  cbn [app trayectoria]. rewrite IH, last_cons_start. reflexivity.
Qed.

Lemma soc_tras_last (E s : Q) (bs : list Q) (k : nat) :
  soc_tras E s bs k = last (trayectoria E s (firstn k bs)) s.
Proof. unfold soc_tras. now rewrite fold_paso_soc. Qed.

Lemma soc_tras_0 (E s : Q) (bs : list Q) : soc_tras E s bs 0 = s.
Proof. reflexivity. Qed.

Lemma last_trayectoria_snoc (E s b : Q) (bs : list Q) :
  last (trayectoria E s (bs ++ [b])) s =
  limitar E (last (trayectoria E s bs) s + b).
Proof.
  rewrite trayectoria_app. cbn [trayectoria].
  now rewrite last_last.
Qed.

Lemma firstn_S_snoc {A : Type} (l : list A) (k : nat) (x : A) :
  nth_error l k = Some x -> firstn (S k) l = firstn k l ++ [x].
Proof.
  revert k. induction l as [|a l IH]; intros [|k] H; simpl in *; try discriminate.
  - now injection H as ->.
  - f_equal. now apply IH.
Qed.

(** Day [k+1] of the main loop: the clamp of the previous value plus the
    balance of the day. *)
Lemma soc_tras_S (E s : Q) (bs : list Q) (k : nat) (b : Q) :
  nth_error bs k = Some b ->
  soc_tras E s bs (S k) = limitar E (soc_tras E s bs k + b).
Proof.
  intros H. rewrite !soc_tras_last, (firstn_S_snoc _ _ _ H).
  apply last_trayectoria_snoc.
Qed.

Lemma soc_tras_cons (E s b : Q) (bs : list Q) (k : nat) :
  soc_tras E s (b :: bs) (S k) = soc_tras E (limitar E (s + b)) bs k.
Proof.
  rewrite !soc_tras_last. simpl firstn. cbn [trayectoria].
  apply last_cons_start.
Qed.

Lemma nth_error_trayectoria (E s : Q) (bs : list Q) (k : nat) :
  (k < List.length bs)%nat ->
  nth_error (trayectoria E s bs) k = Some (soc_tras E s bs (S k)).
Proof.
  revert s k. induction bs as [|b bs IH]; intros s k Hk; simpl in Hk; [lia|].
  destruct k as [|k].
  - reflexivity.
  - cbn [trayectoria nth_error]. rewrite IH by lia.
    now rewrite (soc_tras_cons E s b bs (S k)).
Qed.

Lemma map_soc_tras (E s : Q) (bs : list Q) :
  map (soc_tras E s bs) (seq 1 (List.length bs)) = trayectoria E s bs.
Proof.
  revert s. induction bs as [|b bs IH]; intros s; [reflexivity|].
  cbn [List.length seq map trayectoria]. f_equal.
  rewrite <- seq_shift, map_map, <- IH.
  apply map_ext. intros k. apply soc_tras_cons.
Qed.

(** ** The loop of [sim_dias_sin] *)

Lemma paso_sim_limitar (d p E Emin s : Q) (n : nat) (e : Q) :
  paso_sim d p E Emin (s, n) e =
  let soc := limitar E (s + (e * p - d) * 1000) in
  (soc, if Qltb soc Emin then S n else n).
Proof. reflexivity. Qed.

Lemma suma_bool_cons (b : bool) (l : list bool) :
  suma_bool (b :: l) = ((if b then 1 else 0) + suma_bool l)%nat.
Proof. unfold suma_bool. simpl. now destruct b. Qed.

Lemma fold_paso_sim (d p E Emin : Q) (es : list Q) :
  forall s n,
    fold_left (paso_sim d p E Emin) es (s, n) =
    (last (trayectoria E s (balance_Wh_de d p es)) s,
     (n + suma_bool (por_debajo_min Emin (trayectoria E s (balance_Wh_de d p es))))%nat).
Proof.
  induction es as [|e es IH]; intros s n.
  - simpl. f_equal. unfold suma_bool. simpl. lia.
  - cbn [fold_left]. rewrite paso_sim_limitar. cbv zeta. rewrite IH.
    cbn [balance_Wh_de map trayectoria por_debajo_min].
    rewrite last_cons_start, suma_bool_cons. f_equal.
    fold (balance_Wh_de d p es).
    fold (por_debajo_min Emin
            (trayectoria E (limitar E (s + (e * p - d) * 1000))
               (balance_Wh_de d p es))).
    destruct (Qltb _ Emin); lia.
Qed.

(** [sim_dias_sin] counts the flagged days of the trajectory that the main
    loop computes from a full battery of capacity [bat_Wh]. *)
Lemma sim_dias_sin_soc_list (DoD d : Q) (es : list Q) (p bat : Q) :
  sim_dias_sin DoD d es p bat =
  suma_bool (por_debajo_min (E_min_de bat DoD)
               (soc_list bat bat (balance_Wh_de d p es))).
Proof.
  unfold sim_dias_sin, sim_estado. rewrite fold_paso_sim.
  rewrite soc_list_trayectoria. reflexivity.
Qed.

Lemma firstn_balance (d p : Q) (es : list Q) (k : nat) :
  balance_Wh_de d p (firstn k es) = firstn k (balance_Wh_de d p es).
Proof. unfold balance_Wh_de. symmetry. apply firstn_map. Qed.

Lemma sim_soc_soc_tras (DoD d : Q) (es : list Q) (p bat : Q) (k : nat) :
  sim_soc DoD d es p bat k = soc_tras bat bat (balance_Wh_de d p es) k.
Proof.
  unfold sim_soc, sim_estado. rewrite fold_paso_sim, soc_tras_last.
  now rewrite firstn_balance.
Qed.

Lemma sim_soc_list_trayectoria (DoD d : Q) (es : list Q) (p bat : Q) :
  sim_soc_list DoD d es p bat = trayectoria bat bat (balance_Wh_de d p es).
Proof.
  unfold sim_soc_list.
  rewrite <- map_soc_tras.
  unfold balance_Wh_de at 2. rewrite length_map.
  apply map_ext. intros k. apply sim_soc_soc_tras.
Qed.

(** The balance column of [df]. *)
Lemma balance_Wh_simular (c d p E Emin s0 : Q) (gen : list FilaGen) :
  col_balance_Wh (simular c d p E Emin s0 gen) =
  balance_Wh_de d p (map energia_1kw_kwh gen).
Proof.
  unfold simular, balance_Wh_de, escalar. cbn [col_balance_Wh].
  induction gen as [|g gen IH]; [reflexivity|].
  cbn [map combine]. now rewrite IH.
Qed.

Lemma SoC_Wh_simular (c d p E Emin s0 : Q) (gen : list FilaGen) :
  col_SoC_Wh (simular c d p E Emin s0 gen) =
  soc_list E s0 (balance_Wh_de d p (map energia_1kw_kwh gen)).
Proof.
  rewrite <- (balance_Wh_simular c d p E Emin s0 gen). reflexivity.
Qed.

(** ** The generation table *)



(** ** The sweep table *)

Lemma construir_tabla_ok (DoD d : Q) (es : list Q) :
  construir_tabla DoD d es = Some (tabla DoD d es).
Proof. reflexivity. Qed.

(** ** Running the script *)

Lemma script_completa (c : list Q) (raw : list FilaCruda) (w : Widgets) :
  0 < eta_global w ->
  script c raw w =
  inr {| df := simular (consumo_total_kWh c) (demanda_kwh c w) (panel_kw w)
                 (E_max_Wh w) (E_min_Wh w) (SoC0_Wh w) (df_gen raw);
         dias_sin_bateria :=
           suma_bool (por_debajo_min (E_min_Wh w)
             (soc_list (E_max_Wh w) (SoC0_Wh w)
                (balance_Wh_de (demanda_kwh c w) (panel_kw w)
                   (map energia_1kw_kwh (df_gen raw)))));
         df_excel := tabla (DoD_pct w) (demanda_kwh c w)
                       (map energia_1kw_kwh (df_gen raw)) |}.
Proof.
  intros Heta. unfold script.
  apply Qleb_gt in Heta. rewrite Heta.
  rewrite construir_tabla_ok. cbv zeta.
  rewrite <- (SoC_Wh_simular (consumo_total_kWh c) _ _ _ (E_min_Wh w)).
  reflexivity.
Qed.

Lemma rangos_E_max (w : Widgets) : rangos_widgets w = true -> 1 <= E_max_Wh w.
Proof.
  unfold rangos_widgets. rewrite !andb_true_iff, !Qleb_le.
  intros H. decompose [and] H. unfold E_max_Wh. nra.
Qed.

(** ** The recurrence of the main loop *)




(** ** Bounds *)

Lemma trayectoria_rango (E s : Q) (bs : list Q) :
  0 <= E -> Forall (fun soc => 0 <= soc <= E) (trayectoria E s bs).
Proof.
  intros HE. revert s.
  induction bs as [|b bs IH]; intros s; simpl; constructor.
  - now apply limitar_rango.
  - apply IH.
Qed.

Lemma trayectoria_no_negativa (E s : Q) (bs : list Q) :
  Forall (fun soc => 0 <= soc) (trayectoria E s bs).
Proof.
  revert s. induction bs as [|b bs IH]; intros s; simpl; constructor.
  - apply limitar_no_negativo.
  - apply IH.
Qed.

(** From day [k] on, the trajectory is the one of a fresh run started at
    the clamped value of day [k]. *)
Lemma skipn_trayectoria (E : Q) (k : nat) :
  forall s bs,
    skipn k (trayectoria E s bs) =
    trayectoria E (soc_tras E s bs k) (skipn k bs).
Proof.
  induction k as [|k IH]; intros s bs; [reflexivity|].
  destruct bs as [|b bs]; [reflexivity|].
  cbn [trayectoria skipn]. rewrite IH. now rewrite soc_tras_cons.
Qed.

Lemma lista_bat_positiva (bat : Q) : In bat lista_bat_Wh -> 0 < bat.
Proof.
  unfold lista_bat_Wh. simpl.
  intros [H|[H|[H|[H|[H|[]]]]]]; subst bat; reflexivity.
Qed.

Lemma lista_pv_positiva (pv : Q) : In pv lista_pv_kw -> 0 < pv.
Proof.
  unfold lista_pv_kw. simpl.
  intros [H|[H|[H|[H|[H|[]]]]]]; subst pv; reflexivity.
Qed.

Lemma sim_soc_S (DoD d : Q) (es : list Q) (p bat : Q) (k : nat) (e : Q) :
  nth_error es k = Some e ->
  sim_soc DoD d es p bat (S k) =
  limitar bat (sim_soc DoD d es p bat k + (e * p - d) * 1000).
Proof.
  intros He. rewrite !sim_soc_soc_tras.
  apply soc_tras_S. unfold balance_Wh_de. now rewrite nth_error_map, He.
Qed.

(** C2. The clamps are written to keep [0 <= soc_i <= E_max_Wh] on every
    day, and the script misses one case: a row of the generation file with
    a date and a blank energy cell.  [dropna] looks at the date only and
    keeps the row; its energy is NaN, so is the balance of that day, and
    NaN passes both tests of the clamp ([soc > E_max_Wh] and [soc < 0] are
    both false).  From that day on the state of charge is NaN, which is
    neither [>= 0] nor [<= E_max_Wh], in the main loop and in the sweep.
    Evaluated on binary64 floats: three days of 1 kWh with the second cell
    blank, a demand of 0.5 kWh, a 1 kW panel, a battery of 2000 Wh full at
    the start; and the sweep cell of 600 Wh at 1 kW with a depth of
    discharge of 80 %. *)
Theorem C2_bounds_blank_cell :
  let gen := Float64.dropna Float64.gen_celda_vacia in
  let energia := map Float64.energia_1kw_kwh gen in
  let soc := Float64.soc_list 2000 2000 (Float64.balance_Wh 0.5 1 energia) in
  List.length gen = 3%nat /\
  soc = [2000; PrimFloat.nan; PrimFloat.nan]%float /\
  map (Float64.en_rango 2000) soc = [true; false; false] /\
  Float64.sim_estado 80 0.5 energia 1 600 = (PrimFloat.nan, 0%nat) /\
  Float64.en_rango 600 (fst (Float64.sim_estado 80 0.5 energia 1 600)) = false.
Proof.
  cbv zeta. repeat split; vm_compute; reflexivity.
Qed.

(** ** Flags and counts *)

Lemma Qltb_dec (x y : Q) : Qltb x y = if Qlt_le_dec x y then true else false.
Proof.
  destruct (Qlt_le_dec x y) as [H|H].
  - now apply Qltb_lt.
  - now apply Qltb_ge.
Qed.

Lemma suma_bool_por_debajo (E_min : Q) (socs : list Q) :
  suma_bool (por_debajo_min E_min socs) = dias_bajo_minimo E_min socs.
Proof.
  unfold dias_bajo_minimo, por_debajo_min.
  induction socs as [|s socs IH]; [reflexivity|].
  cbn [map filter]. rewrite suma_bool_cons, <- Qltb_dec.
  destruct (Qltb s E_min); simpl; now rewrite IH.
Qed.

Lemma suma_bool_count (l : list bool) :
  suma_bool l = count_occ bool_dec l true.
Proof.
  induction l as [|b l IH]; [reflexivity|].
  rewrite suma_bool_cons, IH. destruct b; simpl; reflexivity.
Qed.

Lemma por_debajo_min_Forall2 (E_min : Q) (socs : list Q) :
  Forall2 (fun (flag : bool) soc =>
             (flag = true <-> soc < E_min) /\ (soc == E_min -> flag = false))
          (por_debajo_min E_min socs) socs.
Proof.
  induction socs as [|s socs IH]; simpl; constructor; [|exact IH].
  split.
  - apply Qltb_lt.
  - intros Heq. apply Qltb_ge. lra.
Qed.

(** C3. Every usable row of the generation file has its day in [df]; a day
    is flagged exactly when its state of charge is strictly below
    [E_min_Wh] (a value equal to [E_min_Wh] is not flagged), and
    [dias_sin_bateria] is the number of flagged days.  Each row of the
    sweep table holds the number of days of its own loop, one per usable
    row, whose state of charge is strictly below the minimum of its
    capacity; [sim_dias_sin] counts that way for every power and
    capacity. *)
Theorem C3_flags_and_count (c : list Q) (raw : list FilaCruda) (w : Widgets) :
  0 < eta_global w ->
  exists r,
    script c raw w = inr r /\
    col_balance_Wh (df r)
      = balance_Wh_de (demanda_kwh c w) (panel_kw w)
          (map energia_1kw_kwh (df_gen raw)) /\
    col_SoC_Wh (df r)
      = soc_list (E_max_Wh w) (SoC0_Wh w) (col_balance_Wh (df r)) /\
    List.length (col_SoC_Wh (df r)) = List.length (df_gen raw) /\
    List.length (col_bateria_por_debajo_min (df r)) = List.length (df_gen raw) /\
    Forall2 (fun (flag : bool) soc =>
               (flag = true <-> soc < E_min_Wh w) /\
               (soc == E_min_Wh w -> flag = false))
            (col_bateria_por_debajo_min (df r)) (col_SoC_Wh (df r)) /\
    dias_sin_bateria r
      = count_occ bool_dec (col_bateria_por_debajo_min (df r)) true /\
    dias_sin_bateria r = dias_bajo_minimo (E_min_Wh w) (col_SoC_Wh (df r)) /\
    Forall2
      (fun fila '(capacityWh, powerKw) =>
         let socs := sim_soc_list (DoD_pct w) (demanda_kwh c w)
                       (map energia_1kw_kwh (df_gen raw)) powerKw capacityWh in
         E_bateria_Wh fila = capacityWh /\
         List.length socs = List.length (df_gen raw) /\
         Dias_sin fila
           = dias_bajo_minimo (capacityWh * (1 - DoD_pct w / 100)) socs)
      (df_excel r) (list_prod lista_bat_Wh lista_pv_kw) /\
    forall pv bat,
      let es := map energia_1kw_kwh (df_gen raw) in
      let d := demanda_kwh c w in
      sim_dias_sin (DoD_pct w) d es pv bat
      = dias_bajo_minimo (bat * (1 - DoD_pct w / 100))
          (sim_soc_list (DoD_pct w) d es pv bat).
Proof.
  intros Heta.
  assert (Hsim : forall pv bat,
    sim_dias_sin (DoD_pct w) (demanda_kwh c w)
      (map energia_1kw_kwh (df_gen raw)) pv bat
    = dias_bajo_minimo (bat * (1 - DoD_pct w / 100))
        (sim_soc_list (DoD_pct w) (demanda_kwh c w)
           (map energia_1kw_kwh (df_gen raw)) pv bat)).
  { intros pv bat.
    rewrite sim_dias_sin_soc_list, sim_soc_list_trayectoria, soc_list_trayectoria.
    apply suma_bool_por_debajo. }
  assert (Hlen : forall pv bat,
    List.length (sim_soc_list (DoD_pct w) (demanda_kwh c w)
                   (map energia_1kw_kwh (df_gen raw)) pv bat)
    = List.length (df_gen raw)).
  { intros pv bat. unfold sim_soc_list.
    now rewrite length_map, length_seq, length_map. }
  eexists. split; [apply script_completa; exact Heta|].
  cbn [df dias_sin_bateria df_excel].
  change (col_bateria_por_debajo_min (simular ?c0 ?d ?p ?E ?Em ?s ?g))
    with (por_debajo_min Em (col_SoC_Wh (simular c0 d p E Em s g))).
  rewrite balance_Wh_simular, SoC_Wh_simular.
  split; [reflexivity|]. split; [reflexivity|].
  assert (Hn : List.length
                 (soc_list (E_max_Wh w) (SoC0_Wh w)
                    (balance_Wh_de (demanda_kwh c w) (panel_kw w)
                       (map energia_1kw_kwh (df_gen raw))))
               = List.length (df_gen raw)).
  { rewrite soc_list_length. unfold balance_Wh_de. now rewrite !length_map. }
  split; [exact Hn|].
  split; [unfold por_debajo_min; rewrite length_map; exact Hn|].
  split; [apply por_debajo_min_Forall2|].
  split; [apply suma_bool_count|].
  split; [apply suma_bool_por_debajo|].
  split; [|exact Hsim].
  unfold tabla, lista_bat_Wh, lista_pv_kw, etiquetas_pv.
  cbn [flat_map map app list_prod].
  repeat (constructor;
          [ cbv zeta; split; [reflexivity | split; [apply Hlen | apply Hsim]] | ]).
  constructor.
Qed.

Lemma C3_flags_and_count_witness :
  0 < eta_global w_ejemplo /\
  exists r,
    script [500] gen_ejemplo w_ejemplo = inr r /\
    col_balance_Wh (df r)
      = balance_Wh_de (demanda_kwh [500] w_ejemplo) (panel_kw w_ejemplo)
          (map energia_1kw_kwh (df_gen gen_ejemplo)) /\
    col_SoC_Wh (df r)
      = soc_list (E_max_Wh w_ejemplo) (SoC0_Wh w_ejemplo)
          (col_balance_Wh (df r)) /\
    List.length (col_SoC_Wh (df r)) = List.length (df_gen gen_ejemplo) /\
    List.length (col_bateria_por_debajo_min (df r))
      = List.length (df_gen gen_ejemplo) /\
    Forall2 (fun (flag : bool) soc =>
               (flag = true <-> soc < E_min_Wh w_ejemplo) /\
               (soc == E_min_Wh w_ejemplo -> flag = false))
            (col_bateria_por_debajo_min (df r)) (col_SoC_Wh (df r)) /\
    dias_sin_bateria r
      = count_occ bool_dec (col_bateria_por_debajo_min (df r)) true /\
    dias_sin_bateria r
      = dias_bajo_minimo (E_min_Wh w_ejemplo) (col_SoC_Wh (df r)) /\
    Forall2
      (fun fila '(capacityWh, powerKw) =>
         let socs := sim_soc_list (DoD_pct w_ejemplo)
                       (demanda_kwh [500] w_ejemplo)
                       (map energia_1kw_kwh (df_gen gen_ejemplo))
                       powerKw capacityWh in
         E_bateria_Wh fila = capacityWh /\
         List.length socs = List.length (df_gen gen_ejemplo) /\
         Dias_sin fila
           = dias_bajo_minimo (capacityWh * (1 - DoD_pct w_ejemplo / 100)) socs)
      (df_excel r) (list_prod lista_bat_Wh lista_pv_kw) /\
    forall pv bat,
      let es := map energia_1kw_kwh (df_gen gen_ejemplo) in
      let d := demanda_kwh [500] w_ejemplo in
      sim_dias_sin (DoD_pct w_ejemplo) d es pv bat
      = dias_bajo_minimo (bat * (1 - DoD_pct w_ejemplo / 100))
          (sim_soc_list (DoD_pct w_ejemplo) d es pv bat).
Proof.
  assert (H1 : 0 < eta_global w_ejemplo) by reflexivity.
  split; [exact H1|].
  exact (C3_flags_and_count [500] gen_ejemplo w_ejemplo H1).
Defined.

(** ** A series without usable samples *)

(** C4, as the specification states it, fails: on an empty generation
    series the script does not stop with an error; it completes with an
    empty table and a count of zero. *)
Lemma C4_empty_series_counterexample :
  ~ (exists e : Error, script [500] [] w_ejemplo = inl e) /\
  exists r,
    script [500] [] w_ejemplo = inr r /\
    df r = df_vacio /\ dias_sin_bateria r = 0%nat.
Proof.
  split.
  - intros [e He]. vm_compute in He. discriminate He.
  - eexists. split; [vm_compute; reflexivity|]. split; reflexivity.
Qed.

(** C4, amended. When no row of the generation file has a usable date and
    the global efficiency is positive, the script runs to completion: the
    table [df] is empty, [dias_sin_bateria] is 0 and every cell of the sweep
    counts 0 days.  The script has no error for an empty series. *)
Theorem C4_empty_series (c : list Q) (raw : list FilaCruda) (w : Widgets) :
  dropna raw = [] ->
  0 < eta_global w ->
  exists r,
    script c raw w = inr r /\
    df r = df_vacio /\
    dias_sin_bateria r = 0%nat /\
    List.length (df_excel r)
      = (List.length lista_bat_Wh * List.length lista_pv_kw)%nat /\
    Forall (fun fila => Dias_sin fila = 0%nat) (df_excel r).
Proof.
  intros Hraw Heta.
  eexists. split; [apply script_completa; exact Heta|].
  unfold df_gen. rewrite Hraw. cbn [df dias_sin_bateria df_excel].
  split; [reflexivity|]. split; [reflexivity|]. split; [reflexivity|].
  unfold tabla. simpl. repeat constructor.
Qed.

Lemma C4_empty_series_witness :
  dropna [ {| fecha_cruda := None; energia_cruda := 3 |} ] = [] /\
  0 < eta_global w_ejemplo /\
  exists r,
    script [500] [ {| fecha_cruda := None; energia_cruda := 3 |} ] w_ejemplo
      = inr r /\
    df r = df_vacio /\
    dias_sin_bateria r = 0%nat /\
    List.length (df_excel r)
      = (List.length lista_bat_Wh * List.length lista_pv_kw)%nat /\
    Forall (fun fila => Dias_sin fila = 0%nat) (df_excel r).
Proof.
  assert (H1 : dropna [ {| fecha_cruda := None; energia_cruda := 3 |} ] = [])
    by reflexivity.
  assert (H2 : 0 < eta_global w_ejemplo) by reflexivity.
  split; [exact H1|]. split; [exact H2|].
  exact (C4_empty_series [500] _ w_ejemplo H1 H2).
Defined.

(** ** The efficiency guard *)

(** C5. With a global efficiency that is not positive the script stops at
    the guard: the outcome is the error, for every consumption table and
    every generation series, and no result is produced. *)
Theorem C5_zero_efficiency (c : list Q) (raw : list FilaCruda) (w : Widgets) :
  eta_global w <= 0 ->
  script c raw w = inl ConfigurationError /\
  forall r, script c raw w <> inr r.
Proof.
  intros Heta.
  assert (H : script c raw w = inl ConfigurationError).
  { unfold script. apply Qleb_le in Heta. now rewrite Heta. }
  split; [exact H|]. intros r Hr. rewrite H in Hr. discriminate Hr.
Qed.

Lemma C5_zero_efficiency_witness :
  eta_global w_eta_cero <= 0 /\
  script [500] gen_ejemplo w_eta_cero = inl ConfigurationError /\
  forall r, script [500] gen_ejemplo w_eta_cero <> inr r.
Proof.
  assert (H1 : eta_global w_eta_cero <= 0) by (vm_compute; discriminate).
  split; [exact H1|].
  exact (C5_zero_efficiency [500] gen_ejemplo w_eta_cero H1).
Defined.

(** ** Efficiency, demand and balance *)

Lemma balance_kwh_simular (c d p E Emin s0 : Q) (gen : list FilaGen) :
  col_balance_kwh (simular c d p E Emin s0 gen) =
  map (fun g => energia_1kw_kwh g * p - d) gen.
Proof.
  unfold simular, escalar. cbn [col_balance_kwh].
  induction gen as [|g gen IH]; [reflexivity|].
  cbn [map combine]. now rewrite IH.
Qed.

Lemma simular_fila (c d p E Emin s0 : Q) (gen : list FilaGen) (i : nat)
  (g : FilaGen) :
  nth_error gen i = Some g ->
  let t := simular c d p E Emin s0 gen in
  nth_error (col_energia_1kw_kwh t) i = Some (energia_1kw_kwh g) /\
  nth_error (col_energia_kwh t) i = Some (energia_1kw_kwh g * p) /\
  nth_error (col_demanda_kwh t) i = Some d /\
  nth_error (col_balance_kwh t) i = Some (energia_1kw_kwh g * p - d).
Proof.
  intros Hg. cbv zeta. rewrite balance_kwh_simular.
  unfold simular, escalar.
  cbn [col_energia_1kw_kwh col_energia_kwh col_demanda_kwh].
  rewrite !nth_error_map, Hg. repeat split; reflexivity.
Qed.

(** C6. With a positive global efficiency: [eta_global] is the product of
    the four factors; the demand is the single scalar
    [consumo_total_kWh / eta_global], stored unchanged in every row and
    passed unchanged to the sweep; and in row [i] the generation is the
    1 kW value times [panel_kw] and the balance is generation minus
    demand. *)
Theorem C6_demand_and_balance (c : list Q) (raw : list FilaCruda) (w : Widgets) :
  0 < eta_global w ->
  exists r,
    script c raw w = inr r /\
    eta_global w = eta_fv w * eta_cableado w * eta_mppt w * eta_bat w /\
    let demandKWh := consumo_total_kWh c / eta_global w in
    Forall (fun d => d = demandKWh) (col_demanda_kwh (df r)) /\
    df_excel r = tabla (DoD_pct w) demandKWh (map energia_1kw_kwh (df_gen raw)) /\
    forall i g, nth_error (df_gen raw) i = Some g ->
      nth_error (col_energia_kwh (df r)) i
        = Some (energia_1kw_kwh g * panel_kw w) /\
      nth_error (col_demanda_kwh (df r)) i = Some demandKWh /\
      nth_error (col_balance_kwh (df r)) i
        = Some (energia_1kw_kwh g * panel_kw w - demandKWh).
Proof.
  intros Heta.
  eexists. split; [apply script_completa; exact Heta|].
  cbn [df df_excel]. cbv zeta.
  split; [reflexivity|].
  split.
  { unfold simular. cbn [col_demanda_kwh].
    apply Forall_forall. intros d Hd. apply in_map_iff in Hd.
    destruct Hd as [g [Hd _]]. now rewrite <- Hd. }
  split; [reflexivity|].
  intros i g Hg.
  destruct (simular_fila (consumo_total_kWh c) (demanda_kwh c w) (panel_kw w)
              (E_max_Wh w) (E_min_Wh w) (SoC0_Wh w) _ _ _ Hg)
    as (_ & H2 & H3 & H4).
  repeat split; assumption.
Qed.

Lemma C6_demand_and_balance_witness :
  0 < eta_global w_ejemplo /\
  exists r,
    script [500] gen_ejemplo w_ejemplo = inr r /\
    eta_global w_ejemplo
      = eta_fv w_ejemplo * eta_cableado w_ejemplo * eta_mppt w_ejemplo
        * eta_bat w_ejemplo /\
    let demandKWh := consumo_total_kWh [500] / eta_global w_ejemplo in
    Forall (fun d => d = demandKWh) (col_demanda_kwh (df r)) /\
    df_excel r = tabla (DoD_pct w_ejemplo) demandKWh
                   (map energia_1kw_kwh (df_gen gen_ejemplo)) /\
    forall i g, nth_error (df_gen gen_ejemplo) i = Some g ->
      nth_error (col_energia_kwh (df r)) i
        = Some (energia_1kw_kwh g * panel_kw w_ejemplo) /\
      nth_error (col_demanda_kwh (df r)) i = Some demandKWh /\
      nth_error (col_balance_kwh (df r)) i
        = Some (energia_1kw_kwh g * panel_kw w_ejemplo - demandKWh).
Proof.
  assert (H1 : 0 < eta_global w_ejemplo) by reflexivity.
  split; [exact H1|].
  exact (C6_demand_and_balance [500] gen_ejemplo w_ejemplo H1).
Defined.

(** The balance may be negative: in the example every day has a deficit
    of half a kWh. *)
Example balance_negativo :
  exists r,
    script [500] gen_ejemplo w_ejemplo = inr r /\
    Forall (fun b => b == - (1 # 2)) (col_balance_kwh (df r)).
Proof.
  eexists. split; [vm_compute; reflexivity|].
  repeat constructor.
Qed.

(** ** The sweep against the main simulation *)

Lemma sim_dias_sin_simular (c DoD d : Q) (gen : list FilaGen) (pv bat : Q) :
  sim_dias_sin DoD d (map energia_1kw_kwh gen) pv bat =
  suma_bool (col_bateria_por_debajo_min
               (simular c d pv bat (bat * (1 - DoD / 100)) bat gen)).
Proof.
  rewrite sim_dias_sin_soc_list.
  rewrite <- (SoC_Wh_simular c d pv bat (bat * (1 - DoD / 100)) bat gen).
  reflexivity.
Qed.

(** C7. The sweep table has one row per pair of the Cartesian product of
    [lista_bat_Wh] and [lista_pv_kw], in that order, and the count of each
    row is the count that the main simulation gives when run on its own with
    [E_max = capacityWh], [E_min = capacityWh * (1 - DoD_pct/100)], initial
    SoC [capacityWh], panel power [powerKw] and the same demand.  The table
    does not depend on the initial-SoC slider. *)
Theorem C7_sweep_independence (c : list Q) (raw : list FilaCruda) (w : Widgets) :
  0 < eta_global w ->
  exists r,
    script c raw w = inr r /\
    Forall2
      (fun fila '(capacityWh, powerKw) =>
         E_bateria_Wh fila = capacityWh /\
         dict_get etiquetas_pv powerKw = Some (Potencia_label fila) /\
         Dias_sin fila =
           suma_bool (col_bateria_por_debajo_min
             (simular (consumo_total_kWh c) (demanda_kwh c w) powerKw
                capacityWh (capacityWh * (1 - DoD_pct w / 100)) capacityWh
                (df_gen raw))))
      (df_excel r) (list_prod lista_bat_Wh lista_pv_kw) /\
    forall pct,
      exists r', script c raw (con_soc_init w pct) = inr r' /\
                 df_excel r' = df_excel r.
Proof.
  intros Heta.
  eexists. split; [apply script_completa; exact Heta|].
  cbn [df_excel]. split.
  - unfold tabla, lista_bat_Wh, lista_pv_kw, etiquetas_pv.
    cbn [flat_map map app list_prod].
    repeat (constructor;
            [ split; [reflexivity | split; [reflexivity
                                           | apply sim_dias_sin_simular]] | ]).
    constructor.
  - intros pct. eexists.
    split; [apply script_completa; exact Heta|]. reflexivity.
Qed.

Lemma C7_sweep_independence_witness :
  0 < eta_global w_ejemplo /\
  exists r,
    script [500] gen_ejemplo w_ejemplo = inr r /\
    Forall2
      (fun fila '(capacityWh, powerKw) =>
         E_bateria_Wh fila = capacityWh /\
         dict_get etiquetas_pv powerKw = Some (Potencia_label fila) /\
         Dias_sin fila =
           suma_bool (col_bateria_por_debajo_min
             (simular (consumo_total_kWh [500]) (demanda_kwh [500] w_ejemplo)
                powerKw capacityWh
                (capacityWh * (1 - DoD_pct w_ejemplo / 100)) capacityWh
                (df_gen gen_ejemplo))))
      (df_excel r) (list_prod lista_bat_Wh lista_pv_kw) /\
    forall pct,
      exists r', script [500] gen_ejemplo (con_soc_init w_ejemplo pct) = inr r' /\
                 df_excel r' = df_excel r.
Proof.
  assert (H1 : 0 < eta_global w_ejemplo) by reflexivity.
  split; [exact H1|].
  exact (C7_sweep_independence [500] gen_ejemplo w_ejemplo H1).
Defined.

(** ** A battery that stays full *)

Lemma trayectoria_saturada (E : Q) (bs : list Q) :
  0 <= E ->
  Forall (fun b => 0 <= b) bs ->
  forall s, s == E -> Forall (fun soc => soc == E) (trayectoria E s bs).
Proof.
  intros HE Hbs. induction Hbs as [|b bs Hb Hbs IH]; intros s Hs; simpl.
  - constructor.
  - assert (Hl : limitar E (s + b) == E) by (apply limitar_techo; lra).
    constructor; [exact Hl | apply IH; exact Hl].
Qed.

(** C8. If the main loop starts from a full battery and no day has a
    negative balance, the state of charge equals [E_max_Wh] on every day. *)
Theorem C8_no_drift (c : list Q) (raw : list FilaCruda) (w : Widgets) :
  rangos_widgets w = true ->
  0 < eta_global w ->
  SoC0_Wh w == E_max_Wh w ->
  Forall (fun b => 0 <= b)
         (balance_Wh_de (demanda_kwh c w) (panel_kw w)
            (map energia_1kw_kwh (df_gen raw))) ->
  exists r,
    script c raw w = inr r /\
    col_balance_Wh (df r)
      = balance_Wh_de (demanda_kwh c w) (panel_kw w)
          (map energia_1kw_kwh (df_gen raw)) /\
    List.length (col_SoC_Wh (df r)) = List.length (df_gen raw) /\
    Forall (fun soc => soc == E_max_Wh w) (col_SoC_Wh (df r)).
Proof.
  intros Hr Heta Hs0 Hbs.
  pose proof (rangos_E_max w Hr) as HE.
  eexists. split; [apply script_completa; exact Heta|].
  cbn [df]. rewrite balance_Wh_simular, SoC_Wh_simular.
  split; [reflexivity|]. split.
  - rewrite soc_list_length. unfold balance_Wh_de. now rewrite !length_map.
  - rewrite soc_list_trayectoria.
    apply trayectoria_saturada; [lra | exact Hbs | exact Hs0].
Qed.

Lemma C8_no_drift_witness :
  rangos_widgets w_ejemplo = true /\
  0 < eta_global w_ejemplo /\
  SoC0_Wh w_ejemplo == E_max_Wh w_ejemplo /\
  Forall (fun b => 0 <= b)
         (balance_Wh_de (demanda_kwh [500] w_ejemplo) (panel_kw w_ejemplo)
            (map energia_1kw_kwh (df_gen gen_excedente))) /\
  exists r,
    script [500] gen_excedente w_ejemplo = inr r /\
    col_balance_Wh (df r)
      = balance_Wh_de (demanda_kwh [500] w_ejemplo) (panel_kw w_ejemplo)
          (map energia_1kw_kwh (df_gen gen_excedente)) /\
    List.length (col_SoC_Wh (df r)) = List.length (df_gen gen_excedente) /\
    Forall (fun soc => soc == E_max_Wh w_ejemplo) (col_SoC_Wh (df r)).
Proof.
  assert (H1 : rangos_widgets w_ejemplo = true) by reflexivity.
  assert (H2 : 0 < eta_global w_ejemplo) by reflexivity.
  assert (H3 : SoC0_Wh w_ejemplo == E_max_Wh w_ejemplo) by reflexivity.
  assert (H4 : Forall (fun b => 0 <= b)
         (balance_Wh_de (demanda_kwh [500] w_ejemplo) (panel_kw w_ejemplo)
            (map energia_1kw_kwh (df_gen gen_excedente)))).
  { simpl. repeat constructor; vm_compute; discriminate. }
  split; [exact H1|]. split; [exact H2|]. split; [exact H3|].
  split; [exact H4|].
  exact (C8_no_drift [500] gen_excedente w_ejemplo H1 H2 H3 H4).
Defined.

(** ** More panel power *)

Lemma trayectoria_mono (E : Q) (bs1 bs2 : list Q) :
  Forall2 Qle bs1 bs2 ->
  forall s1 s2, s1 <= s2 ->
    Forall2 Qle (trayectoria E s1 bs1) (trayectoria E s2 bs2).
Proof.
  induction 1 as [|b1 b2 bs1 bs2 Hb Hbs IH]; intros s1 s2 Hs; simpl.
  - constructor.
  - assert (Hl : limitar E (s1 + b1) <= limitar E (s2 + b2))
      by (apply limitar_mono; lra).
    constructor; [exact Hl | apply IH; exact Hl].
Qed.

Lemma suma_bool_anti (E_min : Q) (l1 l2 : list Q) :
  Forall2 Qle l1 l2 ->
  (suma_bool (por_debajo_min E_min l2) <= suma_bool (por_debajo_min E_min l1))%nat.
Proof.
  induction 1 as [|s1 s2 l1 l2 Hs Hl IH]; [apply Nat.le_refl|].
  cbn [por_debajo_min map]. rewrite !suma_bool_cons.
  fold (por_debajo_min E_min l1). fold (por_debajo_min E_min l2).
  qtest s2 E_min; qtest s1 E_min; try lia.
  lra.
Qed.

Lemma balance_Wh_de_mono (d p p' : Q) (es : list Q) :
  Forall (fun e => 0 <= e) es ->
  p <= p' ->
  Forall2 Qle (balance_Wh_de d p es) (balance_Wh_de d p' es).
Proof.
  intros Hes Hp. induction Hes as [|e es He Hes IH]; simpl; constructor.
  - assert (e * p <= e * p') by nra. lra.
  - exact IH.
Qed.

(** C9, as stated for every generation series, fails: with a negative
    entry in the generation file more panel power lowers the balance.
    One day with -0.25 kWh, a demand of 0.25 kWh, a battery of 600 Wh and a
    depth of discharge of 80 % (minimum 120 Wh): at 0.5 kW the balance is
    -375 Wh and the day ends at 225 Wh, not flagged; at 1.0 kW the balance
    is -500 Wh and the day ends at 100 Wh, flagged.  The second part is
    the same run through the whole script (consumption 250 Wh, no
    losses): the first five rows of the table are the 600 Wh cells. *)
Lemma C9_monotone_panel_power_counterexample :
  0.5 <= 1.0 /\
  sim_dias_sin 80 (1 # 4) [- (1 # 4)] 0.5 600 = 0%nat /\
  sim_dias_sin 80 (1 # 4) [- (1 # 4)] 1.0 600 = 1%nat /\
  ~ (sim_dias_sin 80 (1 # 4) [- (1 # 4)] 1.0 600
     <= sim_dias_sin 80 (1 # 4) [- (1 # 4)] 0.5 600)%nat /\
  exists r,
    script [250] gen_negativa w_ejemplo = inr r /\
    map Dias_sin (firstn 5 (df_excel r)) = [0; 0; 0; 0; 1]%nat.
Proof.
  split; [vm_compute; discriminate|].
  split; [reflexivity|]. split; [reflexivity|].
  split; [vm_compute; lia|].
  eexists. split; [vm_compute; reflexivity|]. reflexivity.
Qed.

(** C9, amended. For a generation series without negative entries, and a
    fixed demand, depth of discharge and battery capacity, the count of
    [sim_dias_sin] does not grow with the panel power, and the state of
    charge of each day does not shrink. *)
Theorem C9_monotone_panel_power (DoD d : Q) (es : list Q) (bat p p' : Q) :
  Forall (fun e => 0 <= e) es ->
  p <= p' ->
  (sim_dias_sin DoD d es p' bat <= sim_dias_sin DoD d es p bat)%nat /\
  Forall2 Qle (sim_soc_list DoD d es p bat) (sim_soc_list DoD d es p' bat).
Proof.
  intros Hes Hp.
  assert (H : Forall2 Qle (trayectoria bat bat (balance_Wh_de d p es))
                          (trayectoria bat bat (balance_Wh_de d p' es))).
  { apply trayectoria_mono; [now apply balance_Wh_de_mono | lra]. }
  split.
  - rewrite !sim_dias_sin_soc_list, !soc_list_trayectoria.
    now apply suma_bool_anti.
  - now rewrite !sim_soc_list_trayectoria.
Qed.

Lemma C9_monotone_panel_power_witness :
  Forall (fun e => 0 <= e) [0%Q; (1 # 2)%Q; 2%Q] /\
  0.5 <= 1.0 /\
  (sim_dias_sin 80 (1 # 2) [0%Q; (1 # 2)%Q; 2%Q] 1.0 600
   <= sim_dias_sin 80 (1 # 2) [0%Q; (1 # 2)%Q; 2%Q] 0.5 600)%nat /\
  Forall2 Qle (sim_soc_list 80 (1 # 2) [0%Q; (1 # 2)%Q; 2%Q] 0.5 600)
              (sim_soc_list 80 (1 # 2) [0%Q; (1 # 2)%Q; 2%Q] 1.0 600).
Proof.
  assert (H1 : Forall (fun e => 0 <= e) [0%Q; (1 # 2)%Q; 2%Q])
    by (repeat constructor; vm_compute; discriminate).
  assert (H2 : 0.5 <= 1.0) by (vm_compute; discriminate).
  split; [exact H1|]. split; [exact H2|].
  exact (C9_monotone_panel_power 80 (1 # 2) [0%Q; (1 # 2)%Q; 2%Q] 600 0.5 1.0 H1 H2).
Defined.

(** ** Full depth of discharge *)

Lemma E_min_de_100 (E DoD : Q) : DoD == 100 -> E_min_de E DoD == 0.
Proof.
  intros H. unfold E_min_de. rewrite H. field.
Qed.

Lemma por_debajo_min_suelo (E_min E s : Q) (bs : list Q) :
  E_min <= 0 ->
  Forall (fun flag => flag = false) (por_debajo_min E_min (trayectoria E s bs)).
Proof.
  intros Hmin. unfold por_debajo_min. apply Forall_map.
  eapply Forall_impl; [|apply trayectoria_no_negativa].
  intros soc Hsoc. simpl in Hsoc. apply Qltb_ge. lra.
Qed.

Lemma suma_bool_falsos (l : list bool) :
  Forall (fun flag => flag = false) l -> suma_bool l = 0%nat.
Proof.
  induction 1 as [|b l Hb Hl IH]; [reflexivity|].
  rewrite suma_bool_cons, IH, Hb. reflexivity.
Qed.

Lemma sim_dias_sin_dod_100 (DoD d : Q) (es : list Q) (p bat : Q) :
  DoD == 100 -> sim_dias_sin DoD d es p bat = 0%nat.
Proof.
  intros H. rewrite sim_dias_sin_soc_list, soc_list_trayectoria.
  apply suma_bool_falsos, por_debajo_min_suelo.
  rewrite (E_min_de_100 bat DoD H). lra.
Qed.

(** C10. With a depth of discharge of 100 % the minimum capacity is 0, no
    day is flagged, [dias_sin_bateria] is 0 and so is the count of every
    cell of the sweep, whatever the generation series. *)
Theorem C10_full_depth_of_discharge (c : list Q) (raw : list FilaCruda)
  (w : Widgets) :
  DoD_pct w == 100 ->
  0 < eta_global w ->
  exists r,
    script c raw w = inr r /\
    E_min_Wh w == 0 /\
    List.length (col_bateria_por_debajo_min (df r)) = List.length (df_gen raw) /\
    Forall (fun flag => flag = false) (col_bateria_por_debajo_min (df r)) /\
    dias_sin_bateria r = 0%nat /\
    List.length (df_excel r)
      = (List.length lista_bat_Wh * List.length lista_pv_kw)%nat /\
    Forall (fun fila =>
              E_min_de (E_bateria_Wh fila) (DoD_pct w) == 0 /\
              Dias_sin fila = 0%nat)
           (df_excel r).
Proof.
  intros Hdod Heta.
  assert (Hmin : E_min_Wh w == 0) by (apply E_min_de_100; exact Hdod).
  eexists. split; [apply script_completa; exact Heta|].
  cbn [df dias_sin_bateria df_excel].
  split; [exact Hmin|].
  change (col_bateria_por_debajo_min (simular ?c0 ?d ?p ?E ?Em ?s ?g))
    with (por_debajo_min Em (col_SoC_Wh (simular c0 d p E Em s g))).
  rewrite SoC_Wh_simular, soc_list_trayectoria.
  assert (Hf : Forall (fun flag => flag = false)
                 (por_debajo_min (E_min_Wh w)
                    (trayectoria (E_max_Wh w) (SoC0_Wh w)
                       (balance_Wh_de (demanda_kwh c w) (panel_kw w)
                          (map energia_1kw_kwh (df_gen raw)))))).
  { apply por_debajo_min_suelo. lra. }
  split.
  { unfold por_debajo_min. rewrite length_map.
    rewrite <- soc_list_trayectoria, soc_list_length.
    unfold balance_Wh_de. now rewrite !length_map. }
  split; [exact Hf|].
  split; [now apply suma_bool_falsos|].
  split; [reflexivity|].
  unfold tabla, lista_bat_Wh, etiquetas_pv. cbn [flat_map map app].
  repeat (constructor;
          [ split; [ apply E_min_de_100; exact Hdod
                   | apply sim_dias_sin_dod_100; exact Hdod ] | ]).
  constructor.
Qed.

Lemma C10_full_depth_of_discharge_witness :
  DoD_pct w_dod_100 == 100 /\
  0 < eta_global w_dod_100 /\
  exists r,
    script [500] gen_ejemplo w_dod_100 = inr r /\
    E_min_Wh w_dod_100 == 0 /\
    List.length (col_bateria_por_debajo_min (df r))
      = List.length (df_gen gen_ejemplo) /\
    Forall (fun flag => flag = false) (col_bateria_por_debajo_min (df r)) /\
    dias_sin_bateria r = 0%nat /\
    List.length (df_excel r)
      = (List.length lista_bat_Wh * List.length lista_pv_kw)%nat /\
    Forall (fun fila =>
              E_min_de (E_bateria_Wh fila) (DoD_pct w_dod_100) == 0 /\
              Dias_sin fila = 0%nat)
           (df_excel r).
Proof.
  assert (H1 : DoD_pct w_dod_100 == 100) by reflexivity.
  assert (H2 : 0 < eta_global w_dod_100) by reflexivity.
  split; [exact H1|]. split; [exact H2|].
  exact (C10_full_depth_of_discharge [500] gen_ejemplo w_dod_100 H1 H2).
Defined.

(** ** The scenarios of the specification *)

(** Battery of 2000 Wh, depth of discharge 80 %, full at the start, a
    deficit of 500 Wh every day: 1500, 1000, 500, 0; only the last day is
    flagged. *)
Example escenario_soc :
  exists r,
    script [500] gen_ejemplo w_ejemplo = inr r /\
    E_max_Wh w_ejemplo == 2000 /\
    E_min_Wh w_ejemplo == 400 /\
    map Qred (col_SoC_Wh (df r)) = [1500; 1000; 500; 0] /\
    map Qred (col_SoC_pct (df r)) = [75; 50; 25; 0] /\
    col_bateria_por_debajo_min (df r) = [false; false; false; true] /\
    dias_sin_bateria r = 1%nat.
Proof.
  eexists. split; [vm_compute; reflexivity|].
  repeat split; reflexivity.
Qed.

(** The default efficiencies give a global efficiency of 0.762048, and a
    daily consumption of 10 kWh a demand of about 13.12 kWh. *)
Example escenario_eficiencia :
  rangos_widgets w_defecto = true /\
  eta_global w_defecto == 0.762048 /\
  13.12 < demanda_kwh [10000] w_defecto < 13.13.
Proof.
  split; [reflexivity|]. split; [reflexivity|].
  split; reflexivity.
Qed.

(** A value equal to the minimum is not flagged: with a depth of discharge
    of 75 % the minimum is 500 Wh, reached on the third day. *)
Example igual_al_minimo_no_cuenta :
  por_debajo_min 500 (soc_list 2000 2000 [-500; -500; -500; -500])
  = [false; false; false; true].
Proof. reflexivity. Qed.

(** * Further properties of the script *)

(** ** The generation table: filtering and sorting *)

Lemma insertar_perm (f : FilaGen) (l : list FilaGen) :
  Permutation (insertar f l) (f :: l).
Proof.
  induction l as [|g l IH]; simpl; [apply Permutation_refl|].
  destruct (fecha f <=? fecha g)%Z; [apply Permutation_refl|].
  eapply perm_trans; [apply perm_skip, IH | apply perm_swap].
Qed.

Lemma sort_values_perm (l : list FilaGen) : Permutation (sort_values l) l.
Proof.
  induction l as [|f l IH]; simpl; [constructor|].
  eapply perm_trans; [apply insertar_perm | apply perm_skip, IH].
Qed.

Lemma insertar_ordenada (f : FilaGen) (l : list FilaGen) :
  StronglySorted (fun a b => (fecha a <= fecha b)%Z) l ->
  StronglySorted (fun a b => (fecha a <= fecha b)%Z) (insertar f l).
Proof.
  induction 1 as [|g l Hs IH Hg]; simpl.
  - repeat constructor.
  - destruct (Z.leb_spec (fecha f) (fecha g)) as [Hle|Hlt].
    + constructor; [now constructor|].
      constructor; [exact Hle|].
      eapply Forall_impl; [|exact Hg]. simpl. intros a Ha. lia.
    + constructor; [exact IH|].
      eapply Permutation_Forall; [symmetry; apply insertar_perm|].
      constructor; [lia | exact Hg].
Qed.

Lemma sort_values_sorted (l : list FilaGen) :
  StronglySorted (fun a b => (fecha a <= fecha b)%Z) (sort_values l).
Proof.
  induction l as [|f l IH]; simpl; [constructor|].
  now apply insertar_ordenada.
Qed.

Lemma In_dropna (raw : list FilaCruda) (g : FilaGen) :
  In g (dropna raw) <->
  exists f, In f raw /\ fecha_cruda f = Some (fecha g) /\
            energia_cruda f = energia_1kw_kwh g.
Proof.
  induction raw as [|f raw IH]; simpl.
  - split; [tauto | intros [f [[] _]]].
  - destruct (fecha_cruda f) as [d|] eqn:Hd; simpl; rewrite IH; split.
    + intros [Hg|[f' [Hin H]]].
      * exists f. subst g. simpl. auto.
      * exists f'. tauto.
    + intros [f' [[Heq|Hin] [H1 H2]]].
      * left. subst f'. destruct g as [gd ge]. simpl in *.
        rewrite Hd in H1. injection H1 as ->. now rewrite H2.
      * right. exists f'. auto.
    + intros [f' [Hin H]]. exists f'. tauto.
    + intros [f' [[Heq|Hin] [H1 H2]]].
      * subst f'. congruence.
      * exists f'. auto.
Qed.

Lemma length_dropna (raw : list FilaCruda) :
  List.length (dropna raw) = List.length (filter fecha_valida raw).
Proof.
  induction raw as [|f raw IH]; [reflexivity|].
  simpl. unfold fecha_valida at 1.
  destruct (fecha_cruda f); simpl; now rewrite IH.
Qed.

(** X1. [df_gen] holds exactly the rows of the file whose date parses,
    each as often as in the file: rows without a usable date are dropped,
    nothing else is lost, added or changed. *)
Theorem X1_df_gen_rows (raw : list FilaCruda) :
  Permutation (df_gen raw) (dropna raw) /\
  List.length (df_gen raw) = List.length (filter fecha_valida raw) /\
  forall g, In g (df_gen raw) <->
            exists f, In f raw /\ fecha_cruda f = Some (fecha g) /\
                      energia_cruda f = energia_1kw_kwh g.
Proof.
  pose proof (sort_values_perm (dropna raw)) as Hp.
  split; [exact Hp|]. split.
  - unfold df_gen. rewrite (Permutation_length Hp). apply length_dropna.
  - intros g. rewrite <- In_dropna. unfold df_gen. split.
    + apply Permutation_in. exact Hp.
    + apply Permutation_in. symmetry. exact Hp.
Qed.

(** X2. [df_gen] is in ascending date order, and a run that passes the
    efficiency guard shows the days in ascending date order: the date
    column of [df] is sorted. *)
Theorem X2_df_gen_sorted (c : list Q) (raw : list FilaCruda) (w : Widgets) :
  0 < eta_global w ->
  StronglySorted (fun a b => (fecha a <= fecha b)%Z) (df_gen raw) /\
  exists r, script c raw w = inr r /\ StronglySorted Z.le (col_fecha (df r)).
Proof.
  intros Heta.
  assert (Hs : StronglySorted (fun a b => (fecha a <= fecha b)%Z) (df_gen raw))
    by apply sort_values_sorted.
  split; [exact Hs|].
  eexists. split; [apply script_completa; exact Heta|].
  cbn [df simular col_fecha].
  induction Hs as [|g l Hl IH Hg]; simpl; constructor; [exact IH|].
  apply Forall_map. exact Hg.
Qed.

Lemma X2_df_gen_sorted_witness :
  0 < eta_global w_ejemplo /\
  StronglySorted (fun a b => (fecha a <= fecha b)%Z) (df_gen gen_desordenada) /\
  exists r, script [500] gen_desordenada w_ejemplo = inr r /\
            StronglySorted Z.le (col_fecha (df r)).
Proof.
  assert (H1 : 0 < eta_global w_ejemplo) by reflexivity.
  split; [exact H1|].
  exact (X2_df_gen_sorted [500] gen_desordenada w_ejemplo H1).
Defined.

Lemma sorted_perm_eq (l1 l2 : list FilaGen) :
  fechas_ascendentes l1 -> fechas_ascendentes l2 ->
  Permutation l1 l2 -> l1 = l2.
Proof.
  unfold fechas_ascendentes.
  intros H1. revert l2. induction H1 as [|a l1 Hs1 IH Ha]; intros l2 H2 Hp.
  - apply Permutation_nil in Hp. now subst.
  - destruct H2 as [|b l2 Hs2 Hb].
    + apply Permutation_sym, Permutation_nil in Hp. discriminate Hp.
    + assert (Hab : a = b).
      { assert (Hina : In a (b :: l2))
          by (eapply Permutation_in; [exact Hp | now left]).
        assert (Hinb : In b (a :: l1))
          by (eapply Permutation_in; [symmetry; exact Hp | now left]).
        destruct Hina as [Hina|Hina]; [now symmetry|].
        destruct Hinb as [Hinb|Hinb]; [exact Hinb|].
        rewrite Forall_forall in Ha, Hb.
        specialize (Ha _ Hinb). specialize (Hb _ Hina). lia. }
      subst b. f_equal. apply IH; [exact Hs2|].
      eapply Permutation_cons_inv. exact Hp.
Qed.

Lemma sorted_nodup_ascendentes (l : list FilaGen) :
  StronglySorted (fun a b => (fecha a <= fecha b)%Z) l ->
  NoDup (map fecha l) ->
  fechas_ascendentes l.
Proof.
  unfold fechas_ascendentes.
  induction 1 as [|a l Hs IH Ha]; intros Hnd; constructor.
  - apply IH. now inversion Hnd.
  - simpl in Hnd. apply NoDup_cons_iff in Hnd. destruct Hnd as [Hnotin _].
    rewrite Forall_forall in *. intros b Hb.
    specialize (Ha b Hb).
    assert (fecha a <> fecha b).
    { intros Heq. apply Hnotin. rewrite Heq. now apply in_map. }
    lia.
Qed.

Lemma df_gen_perm (raw1 raw2 : list FilaCruda) :
  Permutation (dropna raw1) (dropna raw2) ->
  NoDup (map fecha (dropna raw1)) ->
  df_gen raw1 = df_gen raw2.
Proof.
  intros Hp Hnd. unfold df_gen.
  assert (Hp1 := sort_values_perm (dropna raw1)).
  assert (Hp2 := sort_values_perm (dropna raw2)).
  apply sorted_perm_eq.
  - apply sorted_nodup_ascendentes; [apply sort_values_sorted|].
    eapply Permutation_NoDup; [|exact Hnd].
    apply Permutation_map. now symmetry.
  - apply sorted_nodup_ascendentes; [apply sort_values_sorted|].
    eapply Permutation_NoDup; [|exact Hnd].
    apply Permutation_map.
    eapply perm_trans; [exact Hp | now symmetry].
  - eapply perm_trans; [exact Hp1|].
    eapply perm_trans; [exact Hp|]. now symmetry.
Qed.

(** X3. When the usable dates are pairwise distinct, the outcome of the
    script does not depend on the order of the rows of the generation file
    nor on its rows without a usable date: two files with the same usable
    rows give the same outcome. *)
Theorem X3_row_order_irrelevant (c : list Q) (raw1 raw2 : list FilaCruda)
  (w : Widgets) :
  Permutation (dropna raw1) (dropna raw2) ->
  NoDup (map fecha (dropna raw1)) ->
  script c raw1 w = script c raw2 w.
Proof.
  intros Hp Hnd. unfold script.
  now rewrite (df_gen_perm raw1 raw2 Hp Hnd).
Qed.

Lemma X3_row_order_irrelevant_witness :
  Permutation (dropna gen_desordenada) (dropna gen_en_orden) /\
  NoDup (map fecha (dropna gen_desordenada)) /\
  script [500] gen_desordenada w_ejemplo = script [500] gen_en_orden w_ejemplo.
Proof.
  assert (H1 : Permutation (dropna gen_desordenada) (dropna gen_en_orden))
    by apply perm_swap.
  assert (H2 : NoDup (map fecha (dropna gen_desordenada))).
  { simpl. repeat constructor; simpl; intuition discriminate. }
  split; [exact H1|]. split; [exact H2|].
  exact (X3_row_order_irrelevant [500] gen_desordenada gen_en_orden
           w_ejemplo H1 H2).
Defined.

(** ** Widget values in range *)

Lemma rangos_widgets_spec (w : Widgets) :
  rangos_widgets w = true ->
  (1 # 10 <= panel_kw w <= 50) /\
  (0 <= eta_fv w <= 1) /\ (0 <= eta_cableado w <= 1) /\
  (0 <= eta_mppt w <= 1) /\ (0 <= eta_bat w <= 1) /\
  (1 <= V_bat w <= 1000) /\ (1 <= C_bat_Ah w <= 10000) /\
  (0 <= DoD_pct w <= 100) /\
  (0 <= inject_Z (soc_init_pct w) <= 100).
Proof.
  unfold rangos_widgets.
  rewrite !andb_true_iff, !Qleb_le, !Z.leb_le, !Zle_Qle.
  intros H. decompose [and] H. repeat split; assumption.
Qed.

Lemma producto_unidad (a b : Q) :
  0 <= a <= 1 -> 0 <= b <= 1 -> 0 <= a * b <= 1 /\ a * b <= a /\ a * b <= b.
Proof. intros Ha Hb. repeat split; nra. Qed.

Lemma eta_global_unidad (w : Widgets) :
  rangos_widgets w = true -> 0 <= eta_global w <= 1.
Proof.
  intros Hr. apply rangos_widgets_spec in Hr.
  destruct Hr as (_ & H1 & H2 & H3 & H4 & _).
  unfold eta_global.
  destruct (producto_unidad _ _ H1 H2) as (H12 & _).
  destruct (producto_unidad _ _ H12 H3) as (H123 & _).
  destruct (producto_unidad _ _ H123 H4) as (H1234 & _).
  exact H1234.
Qed.

(** X5. With the four efficiencies in their widget range, the global
    efficiency lies in [[0, 1]] and is at most each factor; and a factor
    equal to zero makes the global efficiency zero, so that the run stops
    at the guard whatever the files hold. *)
Theorem X5_eta_global_range (w : Widgets) :
  rangos_widgets w = true ->
  0 <= eta_global w <= 1 /\
  eta_global w <= eta_fv w /\ eta_global w <= eta_cableado w /\
  eta_global w <= eta_mppt w /\ eta_global w <= eta_bat w /\
  (eta_fv w == 0 \/ eta_cableado w == 0 \/ eta_mppt w == 0 \/ eta_bat w == 0 ->
   eta_global w == 0 /\
   forall c raw, script c raw w = inl ConfigurationError).
Proof.
  intros Hr. apply rangos_widgets_spec in Hr.
  destruct Hr as (_ & H1 & H2 & H3 & H4 & _).
  destruct (producto_unidad _ _ H1 H2) as (H12 & H12a & H12b).
  destruct (producto_unidad _ _ H12 H3) as (H123 & H123a & H123b).
  destruct (producto_unidad _ _ H123 H4) as (H1234 & H1234a & H1234b).
  assert (Hcero : eta_fv w == 0 \/ eta_cableado w == 0 \/ eta_mppt w == 0 \/
                  eta_bat w == 0 -> eta_global w == 0).
  { unfold eta_global.
    intros [Hz|[Hz|[Hz|Hz]]]; setoid_rewrite Hz; ring. }
  unfold eta_global in *.
  split; [lra|]. split; [lra|]. split; [lra|]. split; [lra|]. split; [lra|].
  intros Hz. specialize (Hcero Hz). split; [exact Hcero|].
  intros c raw. unfold script, eta_global.
  assert (Hg : Qleb (eta_fv w * eta_cableado w * eta_mppt w * eta_bat w) 0
               = true) by (apply Qleb_le; lra).
  now rewrite Hg.
Qed.

Lemma X5_eta_global_range_witness :
  rangos_widgets w_eta_cero = true /\
  0 <= eta_global w_eta_cero <= 1 /\
  eta_global w_eta_cero <= eta_fv w_eta_cero /\
  eta_global w_eta_cero <= eta_cableado w_eta_cero /\
  eta_global w_eta_cero <= eta_mppt w_eta_cero /\
  eta_global w_eta_cero <= eta_bat w_eta_cero /\
  (eta_fv w_eta_cero == 0 \/ eta_cableado w_eta_cero == 0 \/
   eta_mppt w_eta_cero == 0 \/ eta_bat w_eta_cero == 0 ->
   eta_global w_eta_cero == 0 /\
   forall c raw, script c raw w_eta_cero = inl ConfigurationError).
Proof.
  assert (H1 : rangos_widgets w_eta_cero = true) by reflexivity.
  split; [exact H1|].
  exact (X5_eta_global_range w_eta_cero H1).
Defined.

Lemma consumo_no_negativo (c : list Q) :
  Forall (fun x => 0 <= x) c -> 0 <= consumo_total_kWh c.
Proof.
  intros Hc. unfold consumo_total_kWh.
  assert (H : 0 <= consumo_total_Wh c).
  { unfold consumo_total_Wh. induction Hc as [|x c Hx Hc IH]; simpl; lra. }
  assert (Hd : consumo_total_Wh c / 1000 * 1000 == consumo_total_Wh c)
    by (field; lra).
  lra.
Qed.

(** X6. Losses only raise the demand: with widget values in range, a
    positive global efficiency, no negative entry in the consumption
    column and a total that fits a 64-bit integer (below [2^63], so that a
    column of whole numbers is added without wrapping), the daily demand
    is at least the daily consumption, and both are non-negative. *)
Theorem X6_demand_covers_consumption (c : list Q) (w : Widgets) :
  rangos_widgets w = true ->
  0 < eta_global w ->
  Forall (fun x => 0 <= x) c ->
  consumo_total_Wh c < 9223372036854775808 ->
  0 <= consumo_total_kWh c /\ consumo_total_kWh c <= demanda_kwh c w.
Proof.
  intros Hr Heta Hc _.
  pose proof (consumo_no_negativo c Hc) as HC.
  destruct (eta_global_unidad w Hr) as (_ & H1).
  split; [exact HC|]. unfold demanda_kwh.
  set (C := consumo_total_kWh c) in *. set (e := eta_global w) in *.
  assert (Hd : C / e * e == C) by (field; lra).
  assert (0 <= C / e).
  { apply Qle_shift_div_l; [exact Heta | lra]. }
  nra.
Qed.

Lemma X6_demand_covers_consumption_witness :
  rangos_widgets w_defecto = true /\
  0 < eta_global w_defecto /\
  Forall (fun x => 0 <= x) [6000; 4000] /\
  consumo_total_Wh [6000; 4000] < 9223372036854775808 /\
  0 <= consumo_total_kWh [6000; 4000] /\
  consumo_total_kWh [6000; 4000] <= demanda_kwh [6000; 4000] w_defecto.
Proof.
  assert (H1 : rangos_widgets w_defecto = true) by reflexivity.
  assert (H2 : 0 < eta_global w_defecto) by reflexivity.
  assert (H3 : Forall (fun x => 0 <= x) [6000; 4000])
    by (repeat constructor; vm_compute; discriminate).
  assert (H4 : consumo_total_Wh [6000; 4000] < 9223372036854775808)
    by reflexivity.
  split; [exact H1|]. split; [exact H2|]. split; [exact H3|].
  split; [exact H4|].
  exact (X6_demand_covers_consumption [6000; 4000] w_defecto H1 H2 H3 H4).
Defined.

Lemma bateria_en_rango (w : Widgets) :
  rangos_widgets w = true ->
  1 <= E_max_Wh w <= 10000000 /\
  0 <= E_min_Wh w <= E_max_Wh w /\
  0 <= SoC0_Wh w <= E_max_Wh w.
Proof.
  intros Hr. apply rangos_widgets_spec in Hr.
  destruct Hr as (_ & _ & _ & _ & _ & HV & HC & HD & HS).
  unfold SoC0_Wh, E_min_Wh, E_min_de, E_max_Wh.
  set (E := V_bat w * C_bat_Ah w).
  assert (HE : 1 <= E <= 10000000) by (subst E; split; nra).
  set (D := DoD_pct w) in *. set (s := inject_Z (soc_init_pct w)) in *.
  assert (HD' : D / 100 * 100 == D) by (field; lra).
  assert (HS' : E * s / 100 * 100 == E * s) by (field; lra).
  repeat split; try lra; nra.
Qed.

(** X7. With widget values in range the battery figures are consistent:
    the capacity is between 1 Wh and 10 MWh, the minimum allowed charge
    is between 0 and the capacity, and the initial charge is not
    negative. *)
Theorem X7_battery_figures (w : Widgets) :
  rangos_widgets w = true ->
  1 <= E_max_Wh w <= 10000000 /\
  0 <= E_min_Wh w <= E_max_Wh w /\
  0 <= SoC0_Wh w.
Proof.
  intros Hr. destruct (bateria_en_rango w Hr) as (H1 & H2 & H3 & _).
  repeat split; (apply H1 || apply H2 || exact H3).
Qed.

Lemma X7_battery_figures_witness :
  rangos_widgets w_defecto = true /\
  1 <= E_max_Wh w_defecto <= 10000000 /\
  0 <= E_min_Wh w_defecto <= E_max_Wh w_defecto /\
  0 <= SoC0_Wh w_defecto.
Proof.
  assert (H1 : rangos_widgets w_defecto = true) by reflexivity.
  split; [exact H1|].
  exact (X7_battery_figures w_defecto H1).
Defined.

(** ** The shape of the tables *)

Lemma suma_bool_length (l : list bool) : (suma_bool l <= List.length l)%nat.
Proof. unfold suma_bool. apply filter_length_le. Qed.

Lemma sim_dias_sin_length (DoD d : Q) (es : list Q) (p bat : Q) :
  (sim_dias_sin DoD d es p bat <= List.length es)%nat.
Proof.
  rewrite sim_dias_sin_soc_list.
  eapply Nat.le_trans; [apply suma_bool_length|].
  unfold por_debajo_min, balance_Wh_de.
  rewrite length_map, soc_list_length, length_map. apply Nat.le_refl.
Qed.

(** X8. In a completed run every column of [df] has one entry per usable
    row of the generation file ("Días simulados"), and neither
    [dias_sin_bateria] nor any count of the sweep exceeds that number of
    days. *)
Theorem X8_table_shape (c : list Q) (raw : list FilaCruda) (w : Widgets) :
  0 < eta_global w ->
  exists r,
    script c raw w = inr r /\
    let n := List.length (filter fecha_valida raw) in
    dias_simulados (df r) = n /\
    List.length (col_energia_1kw_kwh (df r)) = n /\
    List.length (col_energia_kwh (df r)) = n /\
    List.length (col_consumo_kwh (df r)) = n /\
    List.length (col_demanda_kwh (df r)) = n /\
    List.length (col_balance_kwh (df r)) = n /\
    List.length (col_balance_Wh (df r)) = n /\
    List.length (col_SoC_Wh (df r)) = n /\
    List.length (col_SoC_pct (df r)) = n /\
    List.length (col_bateria_por_debajo_min (df r)) = n /\
    List.length (col_color (df r)) = n /\
    (dias_sin_bateria r <= n)%nat /\
    Forall (fun fila => (Dias_sin fila <= n)%nat) (df_excel r).
Proof.
  intros Heta.
  eexists. split; [apply script_completa; exact Heta|].
  cbv zeta. cbn [df dias_sin_bateria df_excel].
  assert (Hn : List.length (df_gen raw) = List.length (filter fecha_valida raw)).
  { unfold df_gen.
    rewrite (Permutation_length (sort_values_perm (dropna raw))).
    apply length_dropna. }
  rewrite <- Hn.
  unfold dias_simulados, col_color.
  rewrite length_map, balance_kwh_simular.
  unfold simular, escalar, por_debajo_min.
  cbn [col_fecha col_energia_1kw_kwh col_energia_kwh col_consumo_kwh
       col_demanda_kwh col_balance_Wh col_SoC_Wh col_SoC_pct
       col_bateria_por_debajo_min].
  rewrite !length_map, !soc_list_length, !length_map, length_combine,
          !length_map, Nat.min_id.
  repeat (split; [reflexivity|]).
  split.
  - eapply Nat.le_trans; [apply suma_bool_length|].
    rewrite length_map, soc_list_length. unfold balance_Wh_de.
    rewrite !length_map. apply Nat.le_refl.
  - unfold tabla, lista_bat_Wh, etiquetas_pv. cbn [flat_map map app].
    assert (H : forall p bat,
               (sim_dias_sin (DoD_pct w) (demanda_kwh c w)
                  (map energia_1kw_kwh (df_gen raw)) p bat
                <= List.length (df_gen raw))%nat).
    { intros p bat. eapply Nat.le_trans; [apply sim_dias_sin_length|].
      rewrite length_map. apply Nat.le_refl. }
    repeat (constructor; [apply H|]). constructor.
Qed.

Lemma X8_table_shape_witness :
  0 < eta_global w_ejemplo /\
  exists r,
    script [500] gen_desordenada w_ejemplo = inr r /\
    let n := List.length (filter fecha_valida gen_desordenada) in
    dias_simulados (df r) = n /\
    List.length (col_energia_1kw_kwh (df r)) = n /\
    List.length (col_energia_kwh (df r)) = n /\
    List.length (col_consumo_kwh (df r)) = n /\
    List.length (col_demanda_kwh (df r)) = n /\
    List.length (col_balance_kwh (df r)) = n /\
    List.length (col_balance_Wh (df r)) = n /\
    List.length (col_SoC_Wh (df r)) = n /\
    List.length (col_SoC_pct (df r)) = n /\
    List.length (col_bateria_por_debajo_min (df r)) = n /\
    List.length (col_color (df r)) = n /\
    (dias_sin_bateria r <= n)%nat /\
    Forall (fun fila => (Dias_sin fila <= n)%nat) (df_excel r).
Proof.
  assert (H1 : 0 < eta_global w_ejemplo) by reflexivity.
  split; [exact H1|].
  exact (X8_table_shape [500] gen_desordenada w_ejemplo H1).
Defined.

(** X9. With widget values in range, the column [SoC_%] of a completed run
    has one entry per entry of [SoC_Wh], and the entry of a day whose state
    of charge lies within [[0, E_max_Wh]] lies within [[0, 100]]. *)
Theorem X9_soc_percent_range (c : list Q) (raw : list FilaCruda) (w : Widgets) :
  rangos_widgets w = true ->
  0 < eta_global w ->
  exists r,
    script c raw w = inr r /\
    List.length (col_SoC_pct (df r)) = List.length (df_gen raw) /\
    forall i soc, nth_error (col_SoC_Wh (df r)) i = Some soc ->
      exists pct,
        nth_error (col_SoC_pct (df r)) i = Some pct /\
        (0 <= soc <= E_max_Wh w -> 0 <= pct <= 100).
Proof.
  intros Hr Heta.
  pose proof (rangos_E_max w Hr) as HE.
  eexists. split; [apply script_completa; exact Heta|].
  cbn [df].
  change (col_SoC_pct (simular ?c0 ?d ?p ?E ?Em ?s ?g))
    with (map (fun x => x / E * 100) (col_SoC_Wh (simular c0 d p E Em s g))).
  rewrite SoC_Wh_simular. split.
  - rewrite length_map, soc_list_length. unfold balance_Wh_de.
    now rewrite !length_map.
  - intros i soc Hi. eexists.
    split; [rewrite nth_error_map, Hi; reflexivity|].
    intros Hsoc. set (E := E_max_Wh w) in *.
    assert (Hd : soc / E * E == soc) by (field; lra).
    assert (0 <= soc / E) by (apply Qle_shift_div_l; lra).
    assert (soc / E <= 1) by (apply Qle_shift_div_r; lra).
    lra.
Qed.

Lemma X9_soc_percent_range_witness :
  rangos_widgets w_ejemplo = true /\
  0 < eta_global w_ejemplo /\
  exists r,
    script [500] gen_ejemplo w_ejemplo = inr r /\
    List.length (col_SoC_pct (df r)) = List.length (df_gen gen_ejemplo) /\
    forall i soc, nth_error (col_SoC_Wh (df r)) i = Some soc ->
      exists pct,
        nth_error (col_SoC_pct (df r)) i = Some pct /\
        (0 <= soc <= E_max_Wh w_ejemplo -> 0 <= pct <= 100).
Proof.
  assert (H1 : rangos_widgets w_ejemplo = true) by reflexivity.
  assert (H2 : 0 < eta_global w_ejemplo) by reflexivity.
  split; [exact H1|]. split; [exact H2|].
  exact (X9_soc_percent_range [500] gen_ejemplo w_ejemplo H1 H2).
Defined.

(** ** How the state of charge moves from one day to the next *)

Lemma limitar_paso (E s b : Q) :
  0 <= s <= E ->
  (0 <= b -> s <= limitar E (s + b) <= s + b) /\
  (b <= 0 -> s + b <= limitar E (s + b) <= s).
Proof.
  intros Hs. unfold limitar, Qgtb. split; intros Hb; qcases; lra.
Qed.

(** X10. On a day that starts with a state of charge within
    [[0, E_max_Wh]], the battery never gains more than the surplus of the
    day nor loses more than its deficit: with a balance [b >= 0] the state
    of charge ends between its previous value and that value plus [b];
    with [b <= 0], between that value plus [b] and the previous value. *)
Theorem X10_daily_change (c : list Q) (raw : list FilaCruda) (w : Widgets) :
  0 < eta_global w ->
  exists r,
    script c raw w = inr r /\
    List.length (col_balance_Wh (df r)) = List.length (df_gen raw) /\
    forall k b, nth_error (col_balance_Wh (df r)) k = Some b ->
      let antes := soc_tras (E_max_Wh w) (SoC0_Wh w) (col_balance_Wh (df r)) k in
      exists soc,
        nth_error (col_SoC_Wh (df r)) k = Some soc /\
        (0 <= antes <= E_max_Wh w ->
         (0 <= b -> antes <= soc <= antes + b) /\
         (b <= 0 -> antes + b <= soc <= antes)).
Proof.
  intros Heta.
  eexists. split; [apply script_completa; exact Heta|].
  cbn [df]. rewrite balance_Wh_simular, SoC_Wh_simular, soc_list_trayectoria.
  set (bs := balance_Wh_de _ _ _).
  split; [subst bs; unfold balance_Wh_de; now rewrite !length_map|].
  intros k b Hb. cbv zeta.
  assert (Hk : (k < List.length bs)%nat) by (apply nth_error_Some; congruence).
  eexists. split; [apply nth_error_trayectoria; exact Hk|].
  rewrite (soc_tras_S _ _ _ _ _ Hb).
  apply limitar_paso.
Qed.

Lemma X10_daily_change_witness :
  0 < eta_global w_ejemplo /\
  exists r,
    script [500] gen_ejemplo w_ejemplo = inr r /\
    List.length (col_balance_Wh (df r)) = List.length (df_gen gen_ejemplo) /\
    forall k b, nth_error (col_balance_Wh (df r)) k = Some b ->
      let antes := soc_tras (E_max_Wh w_ejemplo) (SoC0_Wh w_ejemplo)
                     (col_balance_Wh (df r)) k in
      exists soc,
        nth_error (col_SoC_Wh (df r)) k = Some soc /\
        (0 <= antes <= E_max_Wh w_ejemplo ->
         (0 <= b -> antes <= soc <= antes + b) /\
         (b <= 0 -> antes + b <= soc <= antes)).
Proof.
  assert (H1 : 0 < eta_global w_ejemplo) by reflexivity.
  split; [exact H1|].
  exact (X10_daily_change [500] gen_ejemplo w_ejemplo H1).
Defined.

(** X11. The column [color] holds "EXCEDENTE" on the days whose balance is
    not negative and "DEFICIT" on the days whose balance is negative; on a
    day that starts with a state of charge within [[0, E_max_Wh]], the
    state of charge does not fall if the day is "EXCEDENTE" and does not
    rise if it is "DEFICIT". *)
Theorem X11_color_and_direction (c : list Q) (raw : list FilaCruda)
  (w : Widgets) :
  0 < eta_global w ->
  exists r,
    script c raw w = inr r /\
    List.length (col_color (df r)) = List.length (df_gen raw) /\
    forall k b, nth_error (col_balance_kwh (df r)) k = Some b ->
      let antes := soc_tras (E_max_Wh w) (SoC0_Wh w) (col_balance_Wh (df r)) k in
      exists color soc,
        nth_error (col_color (df r)) k = Some color /\
        nth_error (col_SoC_Wh (df r)) k = Some soc /\
        (0 <= b -> color = "EXCEDENTE"%string /\
                   (0 <= antes <= E_max_Wh w -> antes <= soc)) /\
        (b < 0 -> color = "DEFICIT"%string /\
                  (0 <= antes <= E_max_Wh w -> soc <= antes)).
Proof.
  intros Heta.
  eexists. split; [apply script_completa; exact Heta|].
  cbn [df]. split.
  { unfold col_color. rewrite length_map, balance_kwh_simular.
    now rewrite length_map. }
  intros k b Hb. cbv zeta.
  unfold col_color. rewrite nth_error_map, Hb. cbn [option_map].
  rewrite SoC_Wh_simular, soc_list_trayectoria.
  change (col_balance_Wh (simular ?c0 ?d ?p ?E ?Em ?s ?g))
    with (map (fun x => x * 1000) (col_balance_kwh (simular c0 d p E Em s g))).
  set (bk := col_balance_kwh _) in *.
  assert (HbW : nth_error (map (fun x => x * 1000) bk) k = Some (b * 1000))
    by (now rewrite nth_error_map, Hb).
  assert (Hbs : map (fun x => x * 1000) bk
                = balance_Wh_de (demanda_kwh c w) (panel_kw w)
                    (map energia_1kw_kwh (df_gen raw))).
  { subst bk. rewrite <- (balance_Wh_simular (consumo_total_kWh c) _ _
                            (E_max_Wh w) (E_min_Wh w) (SoC0_Wh w)).
    reflexivity. }
  rewrite <- Hbs.
  assert (Hk : (k < List.length bk)%nat)
    by (apply nth_error_Some; congruence).
  do 2 eexists. split; [reflexivity|].
  split; [apply nth_error_trayectoria; rewrite length_map; exact Hk|].
  rewrite (soc_tras_S _ _ _ _ _ HbW).
  unfold Qgeb. split; intros Hsign.
  - split; [apply Qleb_le in Hsign; now rewrite Hsign|].
    intros Hantes.
    destruct (limitar_paso (E_max_Wh w) _ (b * 1000) Hantes) as [Hup _].
    apply Hup. lra.
  - split; [apply Qleb_gt in Hsign; now rewrite Hsign|].
    intros Hantes.
    destruct (limitar_paso (E_max_Wh w) _ (b * 1000) Hantes) as [_ Hdown].
    apply Hdown. lra.
Qed.

Lemma X11_color_and_direction_witness :
  0 < eta_global w_ejemplo /\
  exists r,
    script [500] gen_desordenada w_ejemplo = inr r /\
    List.length (col_color (df r)) = List.length (df_gen gen_desordenada) /\
    forall k b, nth_error (col_balance_kwh (df r)) k = Some b ->
      let antes := soc_tras (E_max_Wh w_ejemplo) (SoC0_Wh w_ejemplo)
                     (col_balance_Wh (df r)) k in
      exists color soc,
        nth_error (col_color (df r)) k = Some color /\
        nth_error (col_SoC_Wh (df r)) k = Some soc /\
        (0 <= b -> color = "EXCEDENTE"%string /\
                   (0 <= antes <= E_max_Wh w_ejemplo -> antes <= soc)) /\
        (b < 0 -> color = "DEFICIT"%string /\
                  (0 <= antes <= E_max_Wh w_ejemplo -> soc <= antes)).
Proof.
  assert (H1 : 0 < eta_global w_ejemplo) by reflexivity.
  split; [exact H1|].
  exact (X11_color_and_direction [500] gen_desordenada w_ejemplo H1).
Defined.

(** ** Consecutive periods *)

Lemma suma_bool_app (l1 l2 : list bool) :
  suma_bool (l1 ++ l2) = (suma_bool l1 + suma_bool l2)%nat.
Proof. unfold suma_bool. now rewrite filter_app, length_app. Qed.

(** X12. Simulating two consecutive periods in one go is the same as
    simulating the first and then the second from the state of charge the
    first one ends with: the trajectory is the concatenation of the two,
    and the count of days below a minimum is the sum of the two counts. *)
Theorem X12_consecutive_periods (E_max E_min SoC0 : Q) (bs1 bs2 : list Q) :
  let soc1 := soc_list E_max SoC0 bs1 in
  let fin1 := last soc1 SoC0 in
  soc_list E_max SoC0 (bs1 ++ bs2) = soc1 ++ soc_list E_max fin1 bs2 /\
  suma_bool (por_debajo_min E_min (soc_list E_max SoC0 (bs1 ++ bs2)))
  = (suma_bool (por_debajo_min E_min soc1)
     + suma_bool (por_debajo_min E_min (soc_list E_max fin1 bs2)))%nat.
Proof.
  cbv zeta.
  assert (H : soc_list E_max SoC0 (bs1 ++ bs2)
              = soc_list E_max SoC0 bs1
                ++ soc_list E_max (last (soc_list E_max SoC0 bs1) SoC0) bs2).
  { rewrite !soc_list_trayectoria. apply trayectoria_app. }
  split; [exact H|].
  rewrite H. unfold por_debajo_min. rewrite map_app. apply suma_bool_app.
Qed.

(** ** More charge, more demand, deeper discharge *)







Lemma suma_bool_umbral (E_min E_min' : Q) (l : list Q) :
  E_min' <= E_min ->
  (suma_bool (por_debajo_min E_min' l) <= suma_bool (por_debajo_min E_min l))%nat.
Proof.
  intros Hm. induction l as [|s l IH]; [apply Nat.le_refl|].
  cbn [por_debajo_min map]. rewrite !suma_bool_cons.
  fold (por_debajo_min E_min l). fold (por_debajo_min E_min' l).
  qtest s E_min'; qtest s E_min; try lia.
  lra.
Qed.

(** X15. Allowing a deeper discharge never adds days without supply: for
    a battery capacity that is not negative, [sim_dias_sin] with the larger
    depth of discharge counts at most as many days. *)
Theorem X15_deeper_discharge (DoD DoD' d : Q) (es : list Q) (p bat : Q) :
  0 <= bat ->
  DoD <= DoD' ->
  (sim_dias_sin DoD' d es p bat <= sim_dias_sin DoD d es p bat)%nat.
Proof.
  intros Hbat HD.
  rewrite !sim_dias_sin_soc_list.
  apply suma_bool_umbral. unfold E_min_de.
  assert (H1 : DoD / 100 * 100 == DoD) by (field; lra).
  assert (H2 : DoD' / 100 * 100 == DoD') by (field; lra).
  nra.
Qed.

Lemma X15_deeper_discharge_witness :
  0 <= 600 /\ 50 <= 80 /\
  (sim_dias_sin 80 (1 # 2) [0%Q; 0%Q; 3%Q] 1 600
   <= sim_dias_sin 50 (1 # 2) [0%Q; 0%Q; 3%Q] 1 600)%nat.
Proof.
  assert (H1 : 0 <= 600) by (vm_compute; discriminate).
  assert (H2 : 50 <= 80) by (vm_compute; discriminate).
  split; [exact H1|]. split; [exact H2|].
  exact (X15_deeper_discharge 50 80 (1 # 2) [0; 0; 3] 1 600 H1 H2).
Defined.

(** X16. A larger battery does not always mean fewer days without supply:
    the minimum allowed charge grows with the capacity, and a battery that
    has run empty forgets the demand it could not serve.  With no
    generation on the first day, 1.4 kWh on the second, a demand of
    1.2 kWh, a 1 kW panel and a depth of discharge of 80 %, the 600 Wh
    battery counts one day and the 1200 Wh battery counts two. *)
Theorem X16_capacity_not_monotone :
  exists (DoD d : Q) (es : list Q) (p bat bat' : Q),
    0 <= DoD <= 100 /\ 0 <= d /\ Forall (fun e => 0 <= e) es /\ 0 < p /\
    In bat lista_bat_Wh /\ In bat' lista_bat_Wh /\ bat <= bat' /\
    (sim_dias_sin DoD d es p bat < sim_dias_sin DoD d es p bat')%nat.
Proof.
  exists 80, (6 # 5), [0; 7 # 5], 1, 600, 1200.
  split; [split; vm_compute; discriminate|].
  split; [vm_compute; discriminate|].
  split; [repeat constructor; vm_compute; discriminate|].
  split; [reflexivity|].
  split; [simpl; auto|]. split; [simpl; auto|].
  split; [vm_compute; discriminate|].
  vm_compute. lia.
Qed.

(** ** Generation that covers the demand *)

Lemma por_debajo_min_llena (E_min bat : Q) (l : list Q) :
  E_min <= bat ->
  Forall (fun soc => soc == bat) l ->
  Forall (fun flag => flag = false) (por_debajo_min E_min l).
Proof.
  intros Hm Hl. unfold por_debajo_min. apply Forall_map.
  eapply Forall_impl; [|exact Hl].
  intros soc Hsoc. simpl in Hsoc. apply Qltb_ge. lra.
Qed.

(** X17. If on every day the scaled generation covers the demand, a sweep
    cell with a capacity and a depth of discharge that are not negative
    stays full and counts no day without supply. *)
Theorem X17_sweep_surplus (DoD d : Q) (es : list Q) (p bat : Q) :
  0 <= bat ->
  0 <= DoD ->
  Forall (fun e => d <= e * p) es ->
  sim_dias_sin DoD d es p bat = 0%nat /\
  Forall (fun soc => soc == bat) (sim_soc_list DoD d es p bat).
Proof.
  intros Hbat HD Hes.
  assert (Hbs : Forall (fun b => 0 <= b) (balance_Wh_de d p es)).
  { unfold balance_Wh_de. apply Forall_map.
    eapply Forall_impl; [|exact Hes]. intros e He. simpl in He. lra. }
  assert (Hfull : Forall (fun soc => soc == bat)
                    (trayectoria bat bat (balance_Wh_de d p es))).
  { apply trayectoria_saturada; [exact Hbat | exact Hbs | reflexivity]. }
  split.
  - rewrite sim_dias_sin_soc_list, soc_list_trayectoria.
    apply suma_bool_falsos.
    apply (por_debajo_min_llena _ bat); [|exact Hfull].
    unfold E_min_de.
    assert (H1 : DoD / 100 * 100 == DoD) by (field; lra).
    nra.
  - now rewrite sim_soc_list_trayectoria.
Qed.

Lemma X17_sweep_surplus_witness :
  0 <= 600 /\ 0 <= 80 /\
  Forall (fun e => (1 # 2) <= e * 1) [2%Q; (1 # 2)%Q; 1%Q] /\
  sim_dias_sin 80 (1 # 2) [2; 1 # 2; 1] 1 600 = 0%nat /\
  Forall (fun soc => soc == 600) (sim_soc_list 80 (1 # 2) [2; 1 # 2; 1] 1 600).
Proof.
  assert (H1 : 0 <= 600) by (vm_compute; discriminate).
  assert (H2 : 0 <= 80) by (vm_compute; discriminate).
  assert (H3 : Forall (fun e => (1 # 2) <= e * 1) [2%Q; (1 # 2)%Q; 1%Q])
    by (repeat constructor; vm_compute; discriminate).
  split; [exact H1|]. split; [exact H2|]. split; [exact H3|].
  exact (X17_sweep_surplus 80 (1 # 2) [2; 1 # 2; 1] 1 600 H1 H2 H3).
Defined.

(** ** The headline number and the sweep *)

Lemma limitar_Qeq (E x y : Q) : x == y -> limitar E x == limitar E y.
Proof.
  intros H. apply Qle_antisym; apply limitar_mono; lra.
Qed.

Lemma por_debajo_min_Qeq (E_min E : Q) (bs : list Q) :
  forall s s', s == s' ->
    por_debajo_min E_min (trayectoria E s bs)
    = por_debajo_min E_min (trayectoria E s' bs).
Proof.
  induction bs as [|b bs IH]; intros s s' Hs; [reflexivity|].
  cbn [trayectoria por_debajo_min map].
  assert (Hl : limitar E (s + b) == limitar E (s' + b))
    by (apply limitar_Qeq; lra).
  f_equal.
  - qtest (limitar E (s + b)) E_min; qtest (limitar E (s' + b)) E_min;
      try reflexivity; lra.
  - apply IH. exact Hl.
Qed.

(** X19. When the initial charge computed from the slider equals the
    capacity, the headline number [dias_sin_bateria] is the value of
    [sim_dias_sin] at the configured panel power and battery capacity: the
    main simulation is the point of the sweep for the configured system. *)
Theorem X19_headline_on_sweep (c : list Q) (raw : list FilaCruda) (w : Widgets) :
  0 < eta_global w ->
  SoC0_Wh w == E_max_Wh w ->
  exists r,
    script c raw w = inr r /\
    dias_sin_bateria r
    = sim_dias_sin (DoD_pct w) (demanda_kwh c w)
        (map energia_1kw_kwh (df_gen raw)) (panel_kw w) (E_max_Wh w).
Proof.
  intros Heta Hs0.
  eexists. split; [apply script_completa; exact Heta|].
  cbn [dias_sin_bateria].
  rewrite sim_dias_sin_soc_list, !soc_list_trayectoria.
  f_equal. apply por_debajo_min_Qeq. exact Hs0.
Qed.

Lemma X19_headline_on_sweep_witness :
  0 < eta_global w_ejemplo /\
  SoC0_Wh w_ejemplo == E_max_Wh w_ejemplo /\
  exists r,
    script [500] gen_ejemplo w_ejemplo = inr r /\
    dias_sin_bateria r
    = sim_dias_sin (DoD_pct w_ejemplo) (demanda_kwh [500] w_ejemplo)
        (map energia_1kw_kwh (df_gen gen_ejemplo)) (panel_kw w_ejemplo)
        (E_max_Wh w_ejemplo).
Proof.
  assert (H1 : 0 < eta_global w_ejemplo) by reflexivity.
  assert (H2 : SoC0_Wh w_ejemplo == E_max_Wh w_ejemplo) by reflexivity.
  split; [exact H1|]. split; [exact H2|].
  exact (X19_headline_on_sweep [500] gen_ejemplo w_ejemplo H1 H2).
Defined.

(** ** More panel power in the main simulation *)

Lemma energia_no_negativa (raw : list FilaCruda) :
  Forall (fun f => 0 <= energia_cruda f) raw ->
  Forall (fun e => 0 <= e) (map energia_1kw_kwh (df_gen raw)).
Proof.
  intros Hraw. apply Forall_map. apply Forall_forall. intros g Hg.
  unfold df_gen in Hg.
  apply (Permutation_in _ (sort_values_perm (dropna raw))) in Hg.
  apply In_dropna in Hg. destruct Hg as [f [Hin [_ He]]].
  rewrite Forall_forall in Hraw. rewrite <- He. now apply Hraw.
Qed.

(** X20. With no negative entry in the generation file, raising the panel
    power of the main simulation never hurts: every day's state of charge
    is at least as high and [dias_sin_bateria] is at most as large. *)
Theorem X20_more_panel_power (c : list Q) (raw : list FilaCruda)
  (w : Widgets) (p' : Q) :
  0 < eta_global w ->
  Forall (fun f => 0 <= energia_cruda f) raw ->
  panel_kw w <= p' ->
  exists r r',
    script c raw w = inr r /\
    script c raw (con_panel_kw w p') = inr r' /\
    Forall2 Qle (col_SoC_Wh (df r)) (col_SoC_Wh (df r')) /\
    (dias_sin_bateria r' <= dias_sin_bateria r)%nat.
Proof.
  intros Heta Hraw Hp.
  assert (Heta' : 0 < eta_global (con_panel_kw w p')) by exact Heta.
  do 2 eexists.
  split; [apply script_completa; exact Heta|].
  split; [apply script_completa; exact Heta'|].
  cbn [df dias_sin_bateria]. rewrite !SoC_Wh_simular, !soc_list_trayectoria.
  change (demanda_kwh c (con_panel_kw w p')) with (demanda_kwh c w).
  change (panel_kw (con_panel_kw w p')) with p'.
  change (E_max_Wh (con_panel_kw w p')) with (E_max_Wh w).
  change (E_min_Wh (con_panel_kw w p')) with (E_min_Wh w).
  change (SoC0_Wh (con_panel_kw w p')) with (SoC0_Wh w).
  assert (H : Forall2 Qle
    (trayectoria (E_max_Wh w) (SoC0_Wh w)
       (balance_Wh_de (demanda_kwh c w) (panel_kw w)
          (map energia_1kw_kwh (df_gen raw))))
    (trayectoria (E_max_Wh w) (SoC0_Wh w)
       (balance_Wh_de (demanda_kwh c w) p'
          (map energia_1kw_kwh (df_gen raw))))).
  { apply trayectoria_mono; [|apply Qle_refl].
    apply balance_Wh_de_mono; [now apply energia_no_negativa | exact Hp]. }
  split; [exact H|]. now apply suma_bool_anti.
Qed.

Lemma X20_more_panel_power_witness :
  0 < eta_global w_ejemplo /\
  Forall (fun f => 0 <= energia_cruda f) gen_desordenada /\
  panel_kw w_ejemplo <= 2 /\
  exists r r',
    script [500] gen_desordenada w_ejemplo = inr r /\
    script [500] gen_desordenada (con_panel_kw w_ejemplo 2) = inr r' /\
    Forall2 Qle (col_SoC_Wh (df r)) (col_SoC_Wh (df r')) /\
    (dias_sin_bateria r' <= dias_sin_bateria r)%nat.
Proof.
  assert (H1 : 0 < eta_global w_ejemplo) by reflexivity.
  assert (H2 : Forall (fun f => 0 <= energia_cruda f) gen_desordenada)
    by (repeat constructor; vm_compute; discriminate).
  assert (H3 : panel_kw w_ejemplo <= 2) by (vm_compute; discriminate).
  split; [exact H1|]. split; [exact H2|]. split; [exact H3|].
  exact (X20_more_panel_power [500] gen_desordenada w_ejemplo 2 H1 H2 H3).
Defined.


(** ** What the clamps keep *)

Lemma limitar_tests (E x : Q) :
  0 <= E -> Qgtb (limitar E x) E = false /\ Qltb (limitar E x) 0 = false.
Proof.
  intros HE. destruct (limitar_rango E x HE) as [H0 H1].
  unfold Qgtb. split; apply Qltb_ge; assumption.
Qed.

Lemma trayectoria_tests (E s : Q) (bs : list Q) :
  0 <= E ->
  Forall (fun soc => Qgtb soc E = false /\ Qltb soc 0 = false)
         (trayectoria E s bs).
Proof.
  intros HE. revert s.
  induction bs as [|b bs IH]; intros s; simpl; constructor.
  - now apply limitar_tests.
  - apply IH.
Qed.

(** X22. With widget values in range, after every day of the main loop and
    of every sweep cell both tests of the clamp are false: the state of
    charge is not above the capacity and not below zero.  Every usable row
    of the generation file has its day.  When the sum [soc + balance]
    reaches or passes a bound the stored value is the bound itself, and the
    days that follow are computed from that stored value alone: what was
    cut off is not kept anywhere. *)
Theorem X22_clamp_tests (c : list Q) (raw : list FilaCruda) (w : Widgets) :
  rangos_widgets w = true ->
  0 < eta_global w ->
  exists r,
    script c raw w = inr r /\
    let E := E_max_Wh w in
    let es := map energia_1kw_kwh (df_gen raw) in
    let d := demanda_kwh c w in
    let bs := balance_Wh_de d (panel_kw w) es in
    col_balance_Wh (df r) = bs /\
    List.length (col_SoC_Wh (df r)) = List.length (df_gen raw) /\
    Forall (fun soc => Qgtb soc E = false /\ Qltb soc 0 = false)
           (col_SoC_Wh (df r)) /\
    (forall k b, nth_error bs k = Some b ->
       let suma := soc_tras E (SoC0_Wh w) bs k + b in
       let soc := soc_tras E (SoC0_Wh w) bs (S k) in
       nth_error (col_SoC_Wh (df r)) k = Some soc /\
       (E <= suma -> soc == E) /\
       (suma <= 0 -> soc == 0) /\
       skipn (S k) (col_SoC_Wh (df r)) = soc_list E soc (skipn (S k) bs)) /\
    (forall bat pv, In bat lista_bat_Wh -> In pv lista_pv_kw ->
       List.length (sim_soc_list (DoD_pct w) d es pv bat)
         = List.length (df_gen raw) /\
       Forall (fun soc => Qgtb soc bat = false /\ Qltb soc 0 = false)
              (sim_soc_list (DoD_pct w) d es pv bat) /\
       forall k e, nth_error es k = Some e ->
         let suma := sim_soc (DoD_pct w) d es pv bat k + (e * pv - d) * 1000 in
         let soc := sim_soc (DoD_pct w) d es pv bat (S k) in
         (bat <= suma -> soc == bat) /\ (suma <= 0 -> soc == 0)).
Proof.
  intros Hr Heta.
  pose proof (rangos_E_max w Hr) as HE.
  eexists. split; [apply script_completa; exact Heta|].
  cbv zeta. cbn [df].
  rewrite balance_Wh_simular, SoC_Wh_simular.
  set (bs := balance_Wh_de _ _ _).
  split; [reflexivity|].
  split.
  { rewrite soc_list_length. subst bs. unfold balance_Wh_de.
    now rewrite !length_map. }
  rewrite soc_list_trayectoria.
  split; [apply trayectoria_tests; lra|].
  split.
  - intros k b Hb.
    assert (Hk : (k < List.length bs)%nat).
    { apply nth_error_Some. congruence. }
    rewrite (soc_tras_S _ _ _ _ _ Hb).
    split; [|split; [|split]].
    + rewrite nth_error_trayectoria by exact Hk.
      now rewrite (soc_tras_S _ _ _ _ _ Hb).
    + intros Hs. apply limitar_techo; [lra | exact Hs].
    + intros Hs. now apply limitar_suelo.
    + rewrite skipn_trayectoria, soc_list_trayectoria.
      now rewrite (soc_tras_S _ _ _ _ _ Hb).
  - intros bat pv Hbat _. apply lista_bat_positiva in Hbat.
    split.
    { unfold sim_soc_list. now rewrite length_map, length_seq, length_map. }
    split.
    + rewrite sim_soc_list_trayectoria. apply trayectoria_tests. lra.
    + intros k e He. rewrite (sim_soc_S _ _ _ _ _ _ _ He). split.
      * intros Hs. apply limitar_techo; [lra | exact Hs].
      * intros Hs. now apply limitar_suelo.
Qed.

Lemma X22_clamp_tests_witness :
  rangos_widgets w_ejemplo = true /\
  0 < eta_global w_ejemplo /\
  exists r,
    script [500] gen_ejemplo w_ejemplo = inr r /\
    let E := E_max_Wh w_ejemplo in
    let es := map energia_1kw_kwh (df_gen gen_ejemplo) in
    let d := demanda_kwh [500] w_ejemplo in
    let bs := balance_Wh_de d (panel_kw w_ejemplo) es in
    col_balance_Wh (df r) = bs /\
    List.length (col_SoC_Wh (df r)) = List.length (df_gen gen_ejemplo) /\
    Forall (fun soc => Qgtb soc E = false /\ Qltb soc 0 = false)
           (col_SoC_Wh (df r)) /\
    (forall k b, nth_error bs k = Some b ->
       let suma := soc_tras E (SoC0_Wh w_ejemplo) bs k + b in
       let soc := soc_tras E (SoC0_Wh w_ejemplo) bs (S k) in
       nth_error (col_SoC_Wh (df r)) k = Some soc /\
       (E <= suma -> soc == E) /\
       (suma <= 0 -> soc == 0) /\
       skipn (S k) (col_SoC_Wh (df r)) = soc_list E soc (skipn (S k) bs)) /\
    (forall bat pv, In bat lista_bat_Wh -> In pv lista_pv_kw ->
       List.length (sim_soc_list (DoD_pct w_ejemplo) d es pv bat)
         = List.length (df_gen gen_ejemplo) /\
       Forall (fun soc => Qgtb soc bat = false /\ Qltb soc 0 = false)
              (sim_soc_list (DoD_pct w_ejemplo) d es pv bat) /\
       forall k e, nth_error es k = Some e ->
         let suma := sim_soc (DoD_pct w_ejemplo) d es pv bat k
                     + (e * pv - d) * 1000 in
         let soc := sim_soc (DoD_pct w_ejemplo) d es pv bat (S k) in
         (bat <= suma -> soc == bat) /\ (suma <= 0 -> soc == 0)).
Proof.
  assert (H1 : rangos_widgets w_ejemplo = true) by reflexivity.
  assert (H2 : 0 < eta_global w_ejemplo) by reflexivity.
  split; [exact H1|]. split; [exact H2|].
  exact (X22_clamp_tests [500] gen_ejemplo w_ejemplo H1 H2).
Defined.
